(** * Weather service: the two handlers of [main.go]

    A shallow embedding of [getWeatherHandler], [putWeatherHandler] and the
    method switch of [main], together with the collaborators they talk to:
    the [http.ResponseWriter], the weather provider reached through
    [http.Get], and the MongoDB collection [weatherdb.weather].

    Handlers are programs over a small command set (one command per call
    that leaves the handler); [run] executes a program against an
    environment that answers the provider call and the clock, and a state
    holding the collection, the response writer and the log of calls made
    to the collaborators. *)

From Stdlib Require Import ZArith QArith Qabs Floats String Ascii List Bool Lia.
Import ListNotations.

Local Open Scope string_scope.
Local Open Scope Z_scope.

(** ** Go values *)

(** A Go [error] value, kept as its message. *)
Definition error := string.

(** [time.Time], as nanoseconds since the Unix epoch. *)
Definition Time := Z.

(** [type WeatherData struct] *)
Record WeatherData := {
  City : string;
  Description : string;
  Temp : float;
  LastUpdated : Time
}.

(** The element type of [weatherjson.Weather]. *)
Record weatherEntry := { Weather_Description : string }.

(** The type of [weatherjson.Main]. *)
Record weatherMain := { Main_Temp : float }.

(** [type weatherjson struct] *)
Record weatherjson := {
  Weather : list weatherEntry;
  Main : weatherMain;
  Name : string
}.

(** The anonymous struct [requestBody] of [putWeatherHandler]. *)
Record requestBody := { requestBody_City : string }.

(** ** Package [fmt] *)

Module fmt.

(** [fmt.Sprintf] for string operands.  The verbs [%v] and [%s] print the
    operand as it is and [%%] prints a percent sign.  The error renderings
    follow package [fmt]: a missing operand, a verb at the end of the
    format, operands left over, and (for every other verb character,
    none of which occurs in this program) the rendering of a verb the
    operand does not support. *)
Fixpoint extra (args : list string) : string :=
  match args with
  | [] => ""
  | [a] => "string=" ++ a
  | a :: rest => "string=" ++ a ++ ", " ++ extra rest
  end.

Fixpoint Sprintf (format : string) (args : list string) : string :=
  match format with
  | EmptyString =>
      match args with
      | [] => ""
      | _ => "%!(EXTRA " ++ extra args ++ ")"
      end
  | String "%" EmptyString => "%!(NOVERB)"
  | String "%" (String "%" rest) => String "%" (Sprintf rest args)
  | String "%" (String verb rest) =>
      match args with
      | [] => "%!" ++ String verb "(MISSING)" ++ Sprintf rest args
      | a :: args' =>
          if (Ascii.eqb verb "v" || Ascii.eqb verb "s")%bool
          then a ++ Sprintf rest args'
          else "%!" ++ String verb ("(string=" ++ a ++ ")") ++ Sprintf rest args'
      end
  | String c rest => String c (Sprintf rest args)
  end.

End fmt.

(** ** Package [net/http] *)

Module http.

Definition StatusOK : Z := 200.
Definition StatusBadRequest : Z := 400.
Definition StatusNotFound : Z := 404.
Definition StatusMethodNotAllowed : Z := 405.
Definition StatusInternalServerError : Z := 500.

Definition MethodGet : string := "GET".
Definition MethodPut : string := "PUT".

(** [url.Values]: the parsed query, each key with its values in order. *)
Definition Values := list (string * list string).

(** [Values.Get]: the first value of the key, or the empty string. *)
Fixpoint Values_Get (v : Values) (key : string) : string :=
  match v with
  | [] => ""
  | (k, vs) :: rest =>
      if String.eqb k key
      then match vs with [] => "" | x :: _ => x end
      else Values_Get rest key
  end.

(** The parts of [*http.Request] the handlers read. *)
Record Request := {
  Method : string;
  Query : Values;       (* r.URL.Query() *)
  Body : string         (* the bytes of r.Body *)
}.

(** The [*http.Response] of the provider, with the bytes [io.ReadAll]
    yields for its body (the handler drops the error of [io.ReadAll]). *)
Record Response := {
  StatusCode : Z;
  RespBody : string
}.

(** What a handler writes to the body: a text line ([fmt.Fprintln], as
    [http.Error] does), or what [json.Encoder.Encode] writes for a record
    (its JSON text and a newline; the handlers drop the error [Encode]
    returns). *)
Inductive Chunk :=
| Line (msg : string)
| Encoded (d : WeatherData).

(** The [http.ResponseWriter] as the client will see it. *)
Record ResponseWriter := {
  header : list (string * string);
  wroteHeader : option Z;
  body : list Chunk
}.

Definition newWriter : ResponseWriter :=
  {| header := []; wroteHeader := None; body := [] |}.

Fixpoint setKey (k v : string) (h : list (string * string)) :=
  match h with
  | [] => [(k, v)]
  | (k', v') :: rest =>
      if String.eqb k' k then (k, v) :: rest else (k', v') :: setKey k v rest
  end.

(** [w.Header().Set(k, v)]: without effect on the response once the
    header is written. *)
Definition Header_Set (k v : string) (w : ResponseWriter) : ResponseWriter :=
  match wroteHeader w with
  | Some _ => w
  | None => {| header := setKey k v (header w);
               wroteHeader := None; body := body w |}
  end.

(** [w.WriteHeader(code)]: only the first call counts. *)
Definition WriteHeader (code : Z) (w : ResponseWriter) : ResponseWriter :=
  match wroteHeader w with
  | Some _ => w
  | None => {| header := header w; wroteHeader := Some code; body := body w |}
  end.

(** [w.Write]: writes the header with 200 first when none was written. *)
Definition Write (c : Chunk) (w : ResponseWriter) : ResponseWriter :=
  let w' := WriteHeader StatusOK w in
  {| header := header w'; wroteHeader := wroteHeader w';
     body := body w' ++ [c] |}.

End http.

(** ** The MongoDB collection *)

Module mongo.

(** [bson.M{"city": c}] *)
Record Filter := { filter_city : string }.

(** [bson.M{"$set": d}] *)
Record Update := { set : WeatherData }.

(** The documents of the collection, in natural order, each read as the
    [WeatherData] it decodes to.  A document is kept as the record that
    was set: the rounding of [LastUpdated] to the milliseconds of a BSON
    datetime is outside the model. *)
Definition Collection := list WeatherData.

Definition ErrNoDocuments : error := "mongo: no documents in result".

Definition matches (f : Filter) (d : WeatherData) : bool :=
  String.eqb (City d) (filter_city f).

(** [FindOne(ctx, f).Decode(&weather)]: the first matching document. *)
Definition FindOne (f : Filter) (c : Collection) : error + WeatherData :=
  match find (matches f) c with
  | Some d => inr d
  | None => inl ErrNoDocuments
  end.

(** [UpdateOne(ctx, f, u, opts)]: [$set] writes all four fields of the
    first matching document; with [upsert] a document is inserted when
    none matches. *)
Fixpoint UpdateOne (f : Filter) (u : Update) (upsert : bool)
         (c : Collection) : Collection :=
  match c with
  | [] => if upsert then [set u] else []
  | d :: rest =>
      if matches f d then set u :: rest
      else d :: UpdateOne f u upsert rest
  end.

End mongo.

(** ** Package [encoding/json]

    The decoders are the library's; the handlers only look at whether they
    report an error and, if not, at the struct they filled.  A key that is
    absent from the document leaves its field at the zero value. *)
Class JSON := {
  (* json.NewDecoder(r.Body).Decode(&requestBody) *)
  Decode_requestBody : string -> option requestBody;
  (* json.Unmarshal(weatherBytes, &weatherAPIResponse) *)
  Unmarshal_weatherjson : string -> option weatherjson
}.

(** ** Handler programs *)

(** The calls a handler makes: to the provider, to the collection, to the
    clock and to its response writer. *)
Inductive Cmd : Type -> Type :=
| http_Get (url : string) : Cmd (error + http.Response)
| FindOne (f : mongo.Filter) : Cmd (error + WeatherData)
| UpdateOne (f : mongo.Filter) (u : mongo.Update) (upsert : bool) : Cmd (option error)
| time_Now : Cmd Time
| Header_Set (k v : string) : Cmd unit
| WriteHeader (code : Z) : Cmd unit
| Write (c : http.Chunk) : Cmd unit.

(** A handler body: it returns, panics, or makes a call and goes on with
    the answer. *)
Inductive prog (A : Type) : Type :=
| Ret (a : A)
| Panic (msg : string)
| Call {X : Type} (c : Cmd X) (k : X -> prog A).

Arguments Ret {A} a.
Arguments Panic {A} msg.
Arguments Call {A X} c k.

Fixpoint bind {A B : Type} (p : prog A) (f : A -> prog B) : prog B :=
  match p with
  | Ret a => f a
  | Panic msg => Panic msg
  | Call c k => Call c (fun x => bind (k x) f)
  end.

Definition call {X : Type} (c : Cmd X) : prog X := Call c Ret.

Declare Scope prog_scope.
Delimit Scope prog_scope with prog.
Notation "x <- p ;; q" := (bind p (fun x => q))
  (at level 61, p at next level, right associativity) : prog_scope.
Notation "p ;; q" := (bind p (fun _ => q))
  (at level 61, right associativity) : prog_scope.
Local Open Scope prog_scope.

(** Indexing a slice: a run-time panic when the index is out of range. *)
Definition index {A : Type} (s : list A) (i : nat) : prog A :=
  match nth_error s i with
  | Some x => Ret x
  | None => Panic "runtime error: index out of range"
  end.

(** [http.Error(w, msg, code)] *)
Definition http_Error (msg : string) (code : Z) : prog unit :=
  call (Header_Set "Content-Type" "text/plain; charset=utf-8") ;;
  call (Header_Set "X-Content-Type-Options" "nosniff") ;;
  call (WriteHeader code) ;;
  call (Write (http.Line msg)).

(** The float64 constant [273.15]. *)
Definition kelvinOffset : float := 0x1.1126666666666p+8%float.

Section Handlers.

Context {J : JSON}.

(** [func getWeatherHandler(w http.ResponseWriter, r *http.Request)] *)
Definition getWeatherHandler (r : http.Request) : prog unit :=
  let city := http.Values_Get (http.Query r) "city" in
  if String.eqb city "" then
    http_Error "City parameter is required" http.StatusBadRequest
  else
    res <- call (FindOne {| mongo.filter_city := city |}) ;;
    match res with
    | inl _ =>
        http_Error "Weather data not found" http.StatusNotFound
    | inr weather =>
        call (Header_Set "Content-Type" "application/json") ;;
        call (Write (http.Encoded weather))
    end.

(** The provider query of [putWeatherHandler]. *)
Definition searchURL (baseURL apiKey city : string) : string :=
  fmt.Sprintf "%v?appid=%s&q=%s" [baseURL; apiKey; city].

(** [func putWeatherHandler(w http.ResponseWriter, r *http.Request,
    baseURL, apiKey string)] *)
Definition putWeatherHandler (r : http.Request) (baseURL apiKey : string)
  : prog unit :=
  match Decode_requestBody (http.Body r) with
  | None => http_Error "Invalid request body" http.StatusBadRequest
  | Some requestBody =>
      let city := requestBody_City requestBody in
      if String.eqb city "" then
        http_Error "City is required" http.StatusBadRequest
      else
        res <- call (http_Get (searchURL baseURL apiKey city)) ;;
        match res with
        | inl _ =>
            http_Error "Failed to fetch weather data"
                       http.StatusInternalServerError
        | inr response =>
            if negb (http.StatusCode response =? http.StatusOK) then
              http_Error "Failed to fetch weather data from API"
                         http.StatusInternalServerError
            else
              let weatherBytes := http.RespBody response in
              match Unmarshal_weatherjson weatherBytes with
              | None =>
                  http_Error "Failed to parse weather data"
                             http.StatusInternalServerError
              | Some weatherAPIResponse =>
                  first <- index (Weather weatherAPIResponse) 0 ;;
                  now <- call time_Now ;;
                  let weatherData :=
                    {| City := Name weatherAPIResponse;
                       Description := Weather_Description first;
                       Temp := PrimFloat.sub
                                 (Main_Temp (Main weatherAPIResponse))
                                 kelvinOffset;
                       LastUpdated := now |} in
                  let filter := {| mongo.filter_city := City weatherData |} in
                  let update := {| mongo.set := weatherData |} in
                  err <- call (UpdateOne filter update true) ;;
                  match err with
                  | Some _ =>
                      http_Error "Failed to update weather data"
                                 http.StatusInternalServerError
                  | None =>
                      call (WriteHeader http.StatusOK) ;;
                      call (Write (http.Encoded weatherData))
                  end
              end
        end
  end.

(** The handler registered for [/weather] in [main]. *)
Definition weatherRoute (r : http.Request) (baseURL apiKey : string)
  : prog unit :=
  if String.eqb (http.Method r) http.MethodGet then
    getWeatherHandler r
  else if String.eqb (http.Method r) http.MethodPut then
    putWeatherHandler r baseURL apiKey
  else
    http_Error "Method not allowed" http.StatusMethodNotAllowed.

End Handlers.

(** ** Running a handler *)

(** What the outside answers during one request: the provider's reply to
    each URL, the clock, and whether the database call of the request goes
    wrong (connection lost, deadline of the 10 s context exceeded).  A
    database call that goes wrong is taken to have had no effect on the
    collection; a server that applied the write before the error reached
    the driver is outside the model. *)
Record Env := {
  provider : string -> error + http.Response;
  clock : Time;
  mongo_fault : option error
}.

(** The calls that leave the process. *)
Inductive Event :=
| EvGet (url : string)
| EvFindOne (f : mongo.Filter)
| EvUpdateOne (f : mongo.Filter) (u : mongo.Update) (upsert : bool).

Record State := {
  collection : mongo.Collection;      (* weatherCollection *)
  w : http.ResponseWriter;
  calls : list Event
}.

Definition initial (c : mongo.Collection) : State :=
  {| collection := c; w := http.newWriter; calls := [] |}.

Definition log (e : Event) (s : State) : State :=
  {| collection := collection s; w := w s; calls := calls s ++ [e] |}.

Definition onWriter (f : http.ResponseWriter -> http.ResponseWriter)
           (s : State) : State :=
  {| collection := collection s; w := f (w s); calls := calls s |}.

Definition exec (env : Env) {X : Type} (c : Cmd X) (s : State) : X * State :=
  match c in Cmd X return X * State with
  | http_Get url => (provider env url, log (EvGet url) s)
  | FindOne f =>
      (match mongo_fault env with
       | Some e => inl e
       | None => mongo.FindOne f (collection s)
       end, log (EvFindOne f) s)
  | UpdateOne f u upsert =>
      match mongo_fault env with
      | Some e => (Some e, log (EvUpdateOne f u upsert) s)
      | None =>
          (None,
           log (EvUpdateOne f u upsert)
               {| collection := mongo.UpdateOne f u upsert (collection s);
                  w := w s; calls := calls s |})
      end
  | time_Now => (clock env, s)
  | Header_Set k v => (tt, onWriter (http.Header_Set k v) s)
  | WriteHeader code => (tt, onWriter (http.WriteHeader code) s)
  | Write ch => (tt, onWriter (http.Write ch) s)
  end.

(** How a handler ends: it returns, or the goroutine panics and the server
    drops the connection. *)
Inductive Result (A : Type) :=
| Returned (a : A)
| Panicked (msg : string).

Arguments Returned {A} a.
Arguments Panicked {A} msg.

Fixpoint run (env : Env) {A : Type} (p : prog A) (s : State)
  : Result A * State :=
  match p with
  | Ret a => (Returned a, s)
  | Panic msg => (Panicked msg, s)
  | Call c k => let (x, s') := exec env c s in run env (k x) s'
  end.

(** One request served against collection [c]. *)
Definition serve (env : Env) (p : prog unit) (c : mongo.Collection)
  : Result unit * State :=
  run env p (initial c).

(** ** The error classes of the specification

    The handlers answer a failure with a status code and a plain-text
    line.  [failure_status] is the status the specification gives each
    class; [failure_of_message] reads the class off the line the handler
    wrote. *)
Module Spec.

Inductive Failure :=
| InvalidInput
| NotFound
| UpstreamUnavailable
| UpstreamError
| UpstreamParseError
| StorageError.

Definition failure_status (f : Failure) : Z :=
  match f with
  | InvalidInput => 400
  | NotFound => 404
  | UpstreamUnavailable | UpstreamError | UpstreamParseError
  | StorageError => 500
  end.

Definition failure_eqb (a b : Failure) : bool :=
  match a, b with
  | InvalidInput, InvalidInput | NotFound, NotFound
  | UpstreamUnavailable, UpstreamUnavailable
  | UpstreamError, UpstreamError
  | UpstreamParseError, UpstreamParseError
  | StorageError, StorageError => true
  | _, _ => false
  end.

Definition messages : list (string * Failure) :=
  [ ("City parameter is required", InvalidInput);
    ("Invalid request body", InvalidInput);
    ("City is required", InvalidInput);
    ("Weather data not found", NotFound);
    ("Failed to fetch weather data", UpstreamUnavailable);
    ("Failed to fetch weather data from API", UpstreamError);
    ("Failed to parse weather data", UpstreamParseError);
    ("Failed to update weather data", StorageError) ].

Definition failure_of_message (msg : string) : option Failure :=
  option_map snd (find (fun p => String.eqb (fst p) msg) messages).

(** The response is a failure of class [f]: the status of [f] and one
    line that stands for [f]. *)
Definition fails_with (rw : http.ResponseWriter) (f : Failure) : bool :=
  match http.wroteHeader rw, http.body rw with
  | Some code, [http.Line msg] =>
      (code =? failure_status f) &&
      match failure_of_message msg with
      | Some f' => failure_eqb f' f
      | None => false
      end
  | _, _ => false
  end.

(** The response is a success carrying record [d]. *)
Definition succeeds_with (rw : http.ResponseWriter) (d : WeatherData) : Prop :=
  http.wroteHeader rw = Some http.StatusOK /\ http.body rw = [http.Encoded d].

End Spec.

(** ** Records of one city in a collection *)

Definition records_of (city : string) (c : mongo.Collection) : nat :=
  length (filter (mongo.matches {| mongo.filter_city := city |}) c).

Definition one_per_city (c : mongo.Collection) : Prop :=
  forall city, (records_of city c <= 1)%nat.

(** ** A decoder given by a table

    For concrete runs: [encoding/json] restricted to finitely many
    documents, each listed with the struct it decodes to. *)
Definition lookup {V : Type} (k : string) (t : list (string * V)) : option V :=
  option_map snd (find (fun p => String.eqb (fst p) k) t).

Definition tableJSON (reqs : list (string * requestBody))
           (resps : list (string * weatherjson)) : JSON :=
  {| Decode_requestBody := fun s => lookup s reqs;
     Unmarshal_weatherjson := fun s => lookup s resps |}.

(** The double quote. *)
Definition dq : string := String "034" EmptyString.

(** [{"city":"<c>"}] *)
Definition cityDoc (c : string) : string :=
  "{" ++ dq ++ "city" ++ dq ++ ":" ++ dq ++ c ++ dq ++ "}".

(** [{"weather":[{"description":"clear sky"}],"main":{"temp":300.0},"name":"Paris"}] *)
Definition parisDoc : string :=
  "{" ++ dq ++ "weather" ++ dq ++ ":[{" ++ dq ++ "description" ++ dq ++ ":"
      ++ dq ++ "clear sky" ++ dq ++ "}]," ++ dq ++ "main" ++ dq ++ ":{"
      ++ dq ++ "temp" ++ dq ++ ":300.0}," ++ dq ++ "name" ++ dq ++ ":"
      ++ dq ++ "Paris" ++ dq ++ "}".

Definition parisJSON : weatherjson :=
  {| Weather := [ {| Weather_Description := "clear sky" |} ];
     Main := {| Main_Temp := 300%float |};
     Name := "Paris" |}.

(** [{"weather":[],"main":{"temp":300.0},"name":"Paris"}] *)
Definition noConditionsDoc : string :=
  "{" ++ dq ++ "weather" ++ dq ++ ":[]," ++ dq ++ "main" ++ dq ++ ":{"
      ++ dq ++ "temp" ++ dq ++ ":300.0}," ++ dq ++ "name" ++ dq ++ ":"
      ++ dq ++ "Paris" ++ dq ++ "}".

Definition noConditionsJSON : weatherjson :=
  {| Weather := []; Main := {| Main_Temp := 300%float |}; Name := "Paris" |}.

Definition demoJSON : JSON :=
  tableJSON
    [ (cityDoc "Paris", {| requestBody_City := "Paris" |});
      (cityDoc "paris", {| requestBody_City := "paris" |});
      (cityDoc "", {| requestBody_City := "" |});
      ("{}", {| requestBody_City := "" |}) ]
    [ (parisDoc, parisJSON); (noConditionsDoc, noConditionsJSON) ].

Definition demoBase : string := "http://api.test/weather".
Definition demoKey : string := "k".

(** A provider that knows Paris under both spellings. *)
Definition demoProvider (doc : string) (url : string) : error + http.Response :=
  if (String.eqb url (searchURL demoBase demoKey "Paris")
      || String.eqb url (searchURL demoBase demoKey "paris"))%bool
  then inr {| http.StatusCode := 200; http.RespBody := doc |}
  else inr {| http.StatusCode := 404; http.RespBody := "" |}.

Definition demoEnv (doc : string) (fault : option error) : Env :=
  {| provider := demoProvider doc; clock := 1700000000; mongo_fault := fault |}.

Definition putRequest (doc : string) : http.Request :=
  {| http.Method := "PUT"; http.Query := []; http.Body := doc |}.


Definition getRequest (city : string) : http.Request :=
  {| http.Method := "GET"; http.Query := [("city", [city])]; http.Body := "" |}.

(** A provider that cannot be reached. *)
Definition downEnv : Env :=
  {| provider := fun _ => inl "dial tcp: connection refused";
     clock := 1700000000; mongo_fault := None |}.

(** The record the provider's Paris document yields at the demo clock. *)
Definition parisRecord : WeatherData :=
  {| City := "Paris"; Description := "clear sky";
     Temp := PrimFloat.sub 300 kelvinOffset; LastUpdated := 1700000000 |}.

(** ** Observations on a served request *)

(** The status the response carries, once written. *)
Definition status (out : Result unit * State) : option Z :=
  http.wroteHeader (w (snd out)).

(** The handler returned and its response is a failure of class [f]. *)
Definition failed (out : Result unit * State) (f : Spec.Failure) : Prop :=
  fst out = Returned tt /\ Spec.fails_with (w (snd out)) f = true.

(** The handler returned and its response is 200 with record [d]. *)
Definition succeeded (out : Result unit * State) (d : WeatherData) : Prop :=
  fst out = Returned tt /\ Spec.succeeds_with (w (snd out)) d.

(** The record [putWeatherHandler] builds from a decoded provider
    response whose first condition is [first], at time [now]. *)
Definition recordOf (wj : weatherjson) (first : weatherEntry) (now : Time)
  : WeatherData :=
  {| City := Name wj;
     Description := Weather_Description first;
     Temp := PrimFloat.sub (Main_Temp (Main wj)) kelvinOffset;
     LastUpdated := now |}.

(** The exact rational value of a finite float. *)
Definition float_toQ (x : float) : option Q :=
  match Prim2SF x with
  | SpecFloat.S754_zero _ => Some 0%Q
  | SpecFloat.S754_finite s m e =>
      let mz := if s then Z.neg m else Z.pos m in
      Some (if 0 <=? e then inject_Z (mz * 2 ^ e)
            else Qmake mz (Pos.pow 2 (Z.to_pos (- e))))
  | _ => None
  end.

(** [x] is finite and within [eps] of [q]. *)
Definition within (eps : Q) (x : float) (q : Q) : bool :=
  match float_toQ x with
  | Some v => Qle_bool (Qabs (v - q)) eps
  | None => false
  end.

(** ** Outcomes in closed form *)

(** The response of [http.Error] on a fresh writer. *)
Definition errorWriter (msg : string) (code : Z) : http.ResponseWriter :=
  {| http.header := [("Content-Type", "text/plain; charset=utf-8");
                     ("X-Content-Type-Options", "nosniff")];
     http.wroteHeader := Some code;
     http.body := [http.Line msg] |}.

Section Outcomes.

Context {J : JSON}.

(** From the provider call on: what the handler does once the request
    body is decoded and names a city. *)
Definition afterFetch (env : Env) (url : string) (c : mongo.Collection)
  : Result unit * State :=
  let failure msg :=
    (Returned tt,
     {| collection := c; w := errorWriter msg 500; calls := [EvGet url] |}) in
  match provider env url with
  | inl _ => failure "Failed to fetch weather data"
  | inr response =>
      if http.StatusCode response =? 200 then
        match Unmarshal_weatherjson (http.RespBody response) with
        | None => failure "Failed to parse weather data"
        | Some wj =>
            match Weather wj with
            | [] =>
                (Panicked "runtime error: index out of range",
                 {| collection := c; w := http.newWriter;
                    calls := [EvGet url] |})
            | first :: _ =>
                let d := recordOf wj first (clock env) in
                let f := {| mongo.filter_city := City d |} in
                let u := {| mongo.set := d |} in
                match mongo_fault env with
                | Some _ =>
                    (Returned tt,
                     {| collection := c;
                        w := errorWriter "Failed to update weather data" 500;
                        calls := [EvGet url; EvUpdateOne f u true] |})
                | None =>
                    (Returned tt,
                     {| collection := mongo.UpdateOne f u true c;
                        w := {| http.header := [];
                                http.wroteHeader := Some 200;
                                http.body := [http.Encoded d] |};
                        calls := [EvGet url; EvUpdateOne f u true] |})
                end
            end
        end
      else failure "Failed to fetch weather data from API"
  end.

End Outcomes.

(** The state a successful [putWeatherHandler] leaves. *)
Definition stored (url : string) (d : WeatherData) (c : mongo.Collection)
  : State :=
  let f := {| mongo.filter_city := City d |} in
  let u := {| mongo.set := d |} in
  {| collection := mongo.UpdateOne f u true c;
     w := {| http.header := []; http.wroteHeader := Some 200;
             http.body := [http.Encoded d] |};
     calls := [EvGet url; EvUpdateOne f u true] |}.

(** ** Reading a URL: query parameters and fragment (RFC 3986) *)

Fixpoint splitOn (sep : ascii) (s : string) : list string :=
  match s with
  | EmptyString => [EmptyString]
  | String c rest =>
      if Ascii.eqb c sep then EmptyString :: splitOn sep rest
      else match splitOn sep rest with
           | [] => [String c EmptyString]
           | h :: t => String c h :: t
           end
  end.

Fixpoint cutAt (sep : ascii) (s : string) : string * option string :=
  match s with
  | EmptyString => (EmptyString, None)
  | String c rest =>
      if Ascii.eqb c sep then (EmptyString, Some rest)
      else let (h, t) := cutAt sep rest in (String c h, t)
  end.

(** The parameters of the query part of [url], fragment removed. *)
Definition queryParams (url : string) : list string :=
  let (noFragment, _) := cutAt "#" url in
  match snd (cutAt "?" noFragment) with
  | Some q => splitOn "&" q
  | None => []
  end.

(** ** Sequences of successful writes for one city *)

Section Writes.

Context {J : JSON}.
Variables baseURL apiKey : string.

(** [wrote city c n c']: [n] calls of [putWeatherHandler], one after the
    other, each answered 200 with a record of [city], take the
    collection from [c] to [c']. *)
Inductive wrote (city : string)
  : mongo.Collection -> nat -> mongo.Collection -> Prop :=
| wrote_0 : forall c, wrote city c 0 c
| wrote_S : forall c n c1 env r d s,
    wrote city c n c1 ->
    serve env (putWeatherHandler r baseURL apiKey) c1 = (Returned tt, s) ->
    Spec.succeeds_with (w s) d ->
    City d = city ->
    wrote city c (S n) (collection s).

(** One request through the route of [/weather], whatever its outcome. *)
Inductive step : mongo.Collection -> mongo.Collection -> Prop :=
| step_intro : forall c env r res s,
    serve env (weatherRoute r baseURL apiKey) c = (res, s) ->
    step c (collection s).

End Writes.

(** ** Well-formed JSON text and the decoder's framing

    The JSON grammar (RFC 8259) as a scanner: each function returns what
    is left of the text after the item it recognises.  [Valid] is
    well-formedness of a whole text, as [json.Valid] decides it;
    [nextValue] delimits the first value of a text, which is the part
    [json.Decoder.Decode] reads: what follows that value is left in the
    stream and is not looked at. *)
Module json.

Definition quote : ascii := "034".
Definition backslash : ascii := "092".

Definition isSpace (c : ascii) : bool :=
  (Ascii.eqb c " " || Ascii.eqb c "009" || Ascii.eqb c "010"
   || Ascii.eqb c "013")%bool.

Definition isDigit (c : ascii) : bool :=
  ((48 <=? nat_of_ascii c)%nat && (nat_of_ascii c <=? 57)%nat)%bool.

Definition isHex (c : ascii) : bool :=
  (isDigit c
   || ((97 <=? nat_of_ascii c)%nat && (nat_of_ascii c <=? 102)%nat)
   || ((65 <=? nat_of_ascii c)%nat && (nat_of_ascii c <=? 70)%nat))%bool.

Fixpoint skipSpace (s : string) : string :=
  match s with
  | EmptyString => EmptyString
  | String c rest => if isSpace c then skipSpace rest else s
  end.

(** A string, from after its opening quote to after its closing quote. *)
Fixpoint scanString (s : string) : option string :=
  match s with
  | EmptyString => None
  | String c rest =>
      if Ascii.eqb c quote then Some rest
      else if Ascii.eqb c backslash then
        match rest with
        | EmptyString => None
        | String e rest' =>
            if (Ascii.eqb e quote || Ascii.eqb e backslash || Ascii.eqb e "/"
                || Ascii.eqb e "b" || Ascii.eqb e "f" || Ascii.eqb e "n"
                || Ascii.eqb e "r" || Ascii.eqb e "t")%bool
            then scanString rest'
            else if Ascii.eqb e "u" then
              match rest' with
              | String h1 (String h2 (String h3 (String h4 rest''))) =>
                  if (isHex h1 && isHex h2 && isHex h3 && isHex h4)%bool
                  then scanString rest''
                  else None
              | _ => None
              end
            else None
        end
      else if (nat_of_ascii c <? 32)%nat then None
      else scanString rest
  end.

Fixpoint skipDigits (s : string) : string :=
  match s with
  | EmptyString => EmptyString
  | String c rest => if isDigit c then skipDigits rest else s
  end.

(** One digit or more. *)
Definition scanDigits (s : string) : option string :=
  match s with
  | EmptyString => None
  | String c rest => if isDigit c then Some (skipDigits rest) else None
  end.

Definition scanExponent (s : string) : option string :=
  match s with
  | String c rest =>
      if (Ascii.eqb c "e" || Ascii.eqb c "E")%bool then
        match rest with
        | String sign rest' =>
            if (Ascii.eqb sign "+" || Ascii.eqb sign "-")%bool
            then scanDigits rest'
            else scanDigits rest
        | EmptyString => None
        end
      else Some s
  | EmptyString => Some s
  end.

Definition scanFraction (s : string) : option string :=
  match s with
  | String "." rest =>
      match scanDigits rest with
      | Some rest' => scanExponent rest'
      | None => None
      end
  | _ => scanExponent s
  end.

Definition scanNumber (s : string) : option string :=
  let unsigned := match s with String "-" rest => rest | _ => s end in
  match unsigned with
  | EmptyString => None
  | String "0" rest => scanFraction rest
  | String c rest =>
      if isDigit c then scanFraction (skipDigits rest) else None
  end.

(** [word] at the head of [s]. *)
Fixpoint scanWord (word s : string) : option string :=
  match word, s with
  | EmptyString, _ => Some s
  | String a word', String b rest =>
      if Ascii.eqb a b then scanWord word' rest else None
  | String _ _, EmptyString => None
  end.

(** A value, the members of an object from its first key on, and the
    elements of an array from its first element on. *)
Fixpoint scanValue (fuel : nat) (s : string) : option string :=
  match fuel with
  | O => None
  | S fuel' =>
      match s with
      | EmptyString => None
      | String c rest =>
          if Ascii.eqb c "{" then
            match skipSpace rest with
            | String "}" rest' => Some rest'
            | members => scanMembers fuel' members
            end
          else if Ascii.eqb c "[" then
            match skipSpace rest with
            | String "]" rest' => Some rest'
            | elements => scanElements fuel' elements
            end
          else if Ascii.eqb c quote then scanString rest
          else if Ascii.eqb c "t" then scanWord "true" s
          else if Ascii.eqb c "f" then scanWord "false" s
          else if Ascii.eqb c "n" then scanWord "null" s
          else scanNumber s
      end
  end
with scanMembers (fuel : nat) (s : string) : option string :=
  match fuel with
  | O => None
  | S fuel' =>
      match s with
      | EmptyString => None
      | String c rest =>
          if Ascii.eqb c quote then
            match scanString rest with
            | None => None
            | Some afterKey =>
                match skipSpace afterKey with
                | String ":" afterColon =>
                    match scanValue fuel' (skipSpace afterColon) with
                    | None => None
                    | Some afterValue =>
                        match skipSpace afterValue with
                        | String "," more => scanMembers fuel' (skipSpace more)
                        | String "}" rest' => Some rest'
                        | _ => None
                        end
                    end
                | _ => None
                end
            end
          else None
      end
  end
with scanElements (fuel : nat) (s : string) : option string :=
  match fuel with
  | O => None
  | S fuel' =>
      match scanValue fuel' s with
      | None => None
      | Some afterValue =>
          match skipSpace afterValue with
          | String "," more => scanElements fuel' (skipSpace more)
          | String "]" rest' => Some rest'
          | _ => None
          end
      end
  end.

Fixpoint take (n : nat) (s : string) : string :=
  match n, s with
  | S n', String c rest => String c (take n' rest)
  | _, _ => EmptyString
  end.

(** The first value of [s] (leading space skipped) and what follows it. *)
Definition nextValue (s : string) : option (string * string) :=
  let s' := skipSpace s in
  match scanValue (2 * String.length s' + 2) s' with
  | Some rest =>
      Some (take (String.length s' - String.length rest) s', rest)
  | None => None
  end.

(** [s] is one JSON value, with nothing but space around it. *)
Definition Valid (s : string) : bool :=
  match nextValue s with
  | Some (_, rest) =>
      match skipSpace rest with EmptyString => true | _ => false end
  | None => false
  end.

End json.



(** [{"city":"Paris"}}}garbage]: a request for Paris followed by bytes
    that make the body ill-formed. *)
Definition trailingDoc : string := cityDoc "Paris" ++ "}}garbage".

(** ** Histories of requests *)

Section Histories.

Context {J : JSON}.
Variables baseURL apiKey : string.

(** [history c h]: the service started on an empty collection and served
    the requests of [h] one after the other (latest first, each with the
    state it ended in: response and calls made), which left collection
    [c]. *)
Inductive history
  : mongo.Collection -> list (http.Request * State) -> Prop :=
| history_start : history [] []
| history_serve : forall c h env r res s,
    history c h ->
    serve env (weatherRoute r baseURL apiKey) c = (res, s) ->
    history (collection s) ((r, s) :: h).

End Histories.

(** Some request of the history called [UpdateOne] to set record [d],
    whether or not the call went through. *)
Definition upserted (h : list (http.Request * State)) (d : WeatherData)
  : Prop :=
  exists r s f b,
    In (r, s) h /\ In (EvUpdateOne f {| mongo.set := d |} b) (calls s).

(** ** Startup: [func main]

    [main] as a program over the calls it makes before and while serving.
    [log.Fatal] prints and exits the process, so deferred calls do not
    run after it; [http.ListenAndServe] either never returns or returns
    an error. *)

Inductive SysCmd : Type -> Type :=
| godotenv_Load : SysCmd (option error)
| os_Getenv (key : string) : SysCmd string
| mongo_Connect (uri : string) : SysCmd (option error)
| client_Ping : SysCmd (option error)
| client_Disconnect : SysCmd (option error)
| cancel : SysCmd unit
| client_Collection (db coll : string) : SysCmd unit
| http_HandleFunc (pattern : string) (h : http.Request -> prog unit) : SysCmd unit
| fmt_Println (line : string) : SysCmd unit.

Inductive mainProg : Type :=
| MReturn
| log_Fatal (msg : string)
| MCall {X : Type} (c : SysCmd X) (k : X -> mainProg)
| MDefer (deferred : mainProg) (k : mainProg)
| http_ListenAndServe (addr : string) (k : error -> mainProg).

Declare Scope main_scope.
Delimit Scope main_scope with main.
Notation "x <~ c ;; k" := (MCall c (fun x => k))
  (at level 61, c at next level, right associativity) : main_scope.
Notation "'defer' d ;; k" := (MDefer d k)
  (at level 61, d at next level, right associativity) : main_scope.

Section Startup.

Context {J : JSON}.

(** [func main()] *)
Definition main : mainProg :=
  (err <~ godotenv_Load ;;
   match err with
   | Some _ => log_Fatal "Error loading .env file"
   | None =>
       MONGO_URI <~ os_Getenv "MONGO_URI" ;;
       BASE_URL <~ os_Getenv "BASE_URL" ;;
       API_KEY <~ os_Getenv "API_KEY" ;;
       defer (_ <~ cancel ;; MReturn) ;;
       err <~ mongo_Connect MONGO_URI ;;
       match err with
       | Some e => log_Fatal ("Failed to connect to MongoDB:" ++ e)
       | None =>
           error <~ client_Ping ;;
           match error with
           | Some e => log_Fatal ("Failed to ping MongoDB:" ++ e)
           | None =>
               defer (err <~ client_Disconnect ;;
                      match err with
                      | Some e => log_Fatal ("Failed to disconnect MongoDB:" ++ e)
                      | None => MReturn
                      end) ;;
               _ <~ client_Collection "weatherdb" "weather" ;;
               _ <~ http_HandleFunc "/weather"
                      (fun r => weatherRoute r BASE_URL API_KEY) ;;
               _ <~ fmt_Println "Server is running on http://localhost:8080" ;;
               http_ListenAndServe ":8080" (fun e => log_Fatal e)
           end
       end
   end)%main.

End Startup.

(** What the machine answers at startup: whether the [.env] file loads,
    the process environment after loading, the database calls, and what
    listening on an address comes to ([None]: it serves without end). *)
Record Sys := {
  load : option error;
  environ : string -> string;
  connect : string -> option error;
  ping : option error;
  disconnect : option error;
  listen : string -> option error
}.

Inductive SysEvent :=
| SLoad
| SConnect (uri : string)
| SPing
| SDisconnect
| SCancel
| SCollection (db coll : string)
| SHandleFunc (pattern : string) (h : http.Request -> prog unit)
| SPrintln (line : string)
| SListen (addr : string).

(** How [main] ends. *)
Inductive Ending :=
| Exited (msg : string)       (* log.Fatal: message printed, os.Exit(1) *)
| Serving                     (* blocked in ListenAndServe *)
| MainReturned.               (* returned, deferred calls done *)

Definition sysExec (sys : Sys) {X : Type} (c : SysCmd X)
  : X * list SysEvent :=
  match c in SysCmd X return X * list SysEvent with
  | godotenv_Load => (load sys, [SLoad])
  | os_Getenv key => (environ sys key, [])
  | mongo_Connect uri => (connect sys uri, [SConnect uri])
  | client_Ping => (ping sys, [SPing])
  | client_Disconnect => (disconnect sys, [SDisconnect])
  | cancel => (tt, [SCancel])
  | client_Collection db coll => (tt, [SCollection db coll])
  | http_HandleFunc pattern h => (tt, [SHandleFunc pattern h])
  | fmt_Println line => (tt, [SPrintln line])
  end.

(** A deferred call runs when the rest of the function has returned, and
    not when the process has exited or is still serving. *)
Fixpoint runMain (sys : Sys) (p : mainProg) : Ending * list SysEvent :=
  match p with
  | MReturn => (MainReturned, [])
  | log_Fatal msg => (Exited msg, [])
  | MCall c k =>
      let (x, ev) := sysExec sys c in
      let (e, evs) := runMain sys (k x) in (e, (ev ++ evs)%list)
  | MDefer deferred k =>
      match runMain sys k with
      | (MainReturned, evs) =>
          let (e, evs') := runMain sys deferred in (e, (evs ++ evs')%list)
      | ending => ending
      end
  | http_ListenAndServe addr k =>
      match listen sys addr with
      | None => (Serving, [SListen addr])
      | Some err =>
          let (e, evs) := runMain sys (k err) in (e, SListen addr :: evs)
      end
  end.

(** A machine where startup goes through and the server keeps serving. *)
Definition demoSys : Sys :=
  {| load := None;
     environ := fun key =>
       if String.eqb key "MONGO_URI" then "mongodb://db.test:27017"
       else if String.eqb key "BASE_URL" then demoBase
       else if String.eqb key "API_KEY" then demoKey
       else "";
     connect := fun _ => None;
     ping := None;
     disconnect := None;
     listen := fun _ => None |}.

(** The same machine with a failing step. *)
Definition noEnvFile : Sys :=
  {| load := Some "open .env: no such file or directory";
     environ := fun _ => ""; connect := connect demoSys; ping := None;
     disconnect := None; listen := listen demoSys |}.

Definition badURI : Sys :=
  {| load := None; environ := environ demoSys;
     connect := fun _ => Some "error parsing uri";
     ping := None; disconnect := None; listen := listen demoSys |}.

Definition noDatabase : Sys :=
  {| load := None; environ := environ demoSys; connect := connect demoSys;
     ping := Some "server selection error";
     disconnect := None; listen := listen demoSys |}.

Definition portTaken : Sys :=
  {| load := None; environ := environ demoSys; connect := connect demoSys;
     ping := None; disconnect := None;
     listen := fun _ => Some "listen tcp :8080: bind: address already in use" |}.

(** A second provider document for Paris, and the record it yields.
    [{"weather":[{"description":"light rain"},{"description":"mist"}],
      "main":{"temp":280.0},"name":"Paris"}] *)
Definition rainDoc : string :=
  "{" ++ dq ++ "weather" ++ dq ++ ":[{" ++ dq ++ "description" ++ dq ++ ":"
      ++ dq ++ "light rain" ++ dq ++ "},{" ++ dq ++ "description" ++ dq ++ ":"
      ++ dq ++ "mist" ++ dq ++ "}]," ++ dq ++ "main" ++ dq ++ ":{"
      ++ dq ++ "temp" ++ dq ++ ":280.0}," ++ dq ++ "name" ++ dq ++ ":"
      ++ dq ++ "Paris" ++ dq ++ "}".

Definition rainJSON : weatherjson :=
  {| Weather := [ {| Weather_Description := "light rain" |};
                  {| Weather_Description := "mist" |} ];
     Main := {| Main_Temp := 280%float |};
     Name := "Paris" |}.

(** [demoJSON] with the rain document and a body that is not JSON. *)
Definition demoJSON2 : JSON :=
  tableJSON
    [ (cityDoc "Paris", {| requestBody_City := "Paris" |});
      (cityDoc "paris", {| requestBody_City := "paris" |}) ]
    [ (parisDoc, parisJSON); (rainDoc, rainJSON) ].

Definition osloRecord : WeatherData :=
  {| City := "Oslo"; Description := "snow";
     Temp := PrimFloat.sub 270 kelvinOffset; LastUpdated := 1690000000 |}.

(** The record the rain document yields at the demo clock. *)
Definition rainRecord : WeatherData :=
  {| City := "Paris"; Description := "light rain";
     Temp := PrimFloat.sub 280 kelvinOffset; LastUpdated := 1700000000 |}.

(** ** The branches of [putWeatherHandler] *)

(** The outcomes of the write path, one per branch of the handler. *)
Inductive PutCase {J : JSON} (env : Env) (r : http.Request)
          (baseURL apiKey : string) (c : mongo.Collection)
  : Result unit * State -> Prop :=
| put_case_body :
    Decode_requestBody (http.Body r) = None ->
    PutCase env r baseURL apiKey c
      (Returned tt, {| collection := c;
                       w := errorWriter "Invalid request body" 400;
                       calls := [] |})
| put_case_city : forall rb,
    Decode_requestBody (http.Body r) = Some rb ->
    requestBody_City rb = "" ->
    PutCase env r baseURL apiKey c
      (Returned tt, {| collection := c;
                       w := errorWriter "City is required" 400;
                       calls := [] |})
| put_case_transport : forall rb e,
    Decode_requestBody (http.Body r) = Some rb ->
    requestBody_City rb <> "" ->
    provider env (searchURL baseURL apiKey (requestBody_City rb)) = inl e ->
    PutCase env r baseURL apiKey c
      (Returned tt,
       {| collection := c;
          w := errorWriter "Failed to fetch weather data" 500;
          calls := [EvGet (searchURL baseURL apiKey (requestBody_City rb))] |})
| put_case_status : forall rb response,
    Decode_requestBody (http.Body r) = Some rb ->
    requestBody_City rb <> "" ->
    provider env (searchURL baseURL apiKey (requestBody_City rb))
      = inr response ->
    http.StatusCode response <> 200 ->
    PutCase env r baseURL apiKey c
      (Returned tt,
       {| collection := c;
          w := errorWriter "Failed to fetch weather data from API" 500;
          calls := [EvGet (searchURL baseURL apiKey (requestBody_City rb))] |})
| put_case_parse : forall rb response,
    Decode_requestBody (http.Body r) = Some rb ->
    requestBody_City rb <> "" ->
    provider env (searchURL baseURL apiKey (requestBody_City rb))
      = inr response ->
    http.StatusCode response = 200 ->
    Unmarshal_weatherjson (http.RespBody response) = None ->
    PutCase env r baseURL apiKey c
      (Returned tt,
       {| collection := c;
          w := errorWriter "Failed to parse weather data" 500;
          calls := [EvGet (searchURL baseURL apiKey (requestBody_City rb))] |})
| put_case_panic : forall rb response wj,
    Decode_requestBody (http.Body r) = Some rb ->
    requestBody_City rb <> "" ->
    provider env (searchURL baseURL apiKey (requestBody_City rb))
      = inr response ->
    http.StatusCode response = 200 ->
    Unmarshal_weatherjson (http.RespBody response) = Some wj ->
    Weather wj = [] ->
    PutCase env r baseURL apiKey c
      (Panicked "runtime error: index out of range",
       {| collection := c; w := http.newWriter;
          calls := [EvGet (searchURL baseURL apiKey (requestBody_City rb))] |})
| put_case_store : forall rb response wj first rest e,
    Decode_requestBody (http.Body r) = Some rb ->
    requestBody_City rb <> "" ->
    provider env (searchURL baseURL apiKey (requestBody_City rb))
      = inr response ->
    http.StatusCode response = 200 ->
    Unmarshal_weatherjson (http.RespBody response) = Some wj ->
    Weather wj = first :: rest ->
    mongo_fault env = Some e ->
    let d := recordOf wj first (clock env) in
    PutCase env r baseURL apiKey c
      (Returned tt,
       {| collection := c;
          w := errorWriter "Failed to update weather data" 500;
          calls := [EvGet (searchURL baseURL apiKey (requestBody_City rb));
                    EvUpdateOne {| mongo.filter_city := City d |}
                                {| mongo.set := d |} true] |})
| put_case_ok : forall rb response wj first rest,
    Decode_requestBody (http.Body r) = Some rb ->
    requestBody_City rb <> "" ->
    provider env (searchURL baseURL apiKey (requestBody_City rb))
      = inr response ->
    http.StatusCode response = 200 ->
    Unmarshal_weatherjson (http.RespBody response) = Some wj ->
    Weather wj = first :: rest ->
    mongo_fault env = None ->
    PutCase env r baseURL apiKey c
      (Returned tt,
       stored (searchURL baseURL apiKey (requestBody_City rb))
              (recordOf wj first (clock env)) c).

(** * Properties *)

(** ** The collection *)

Lemma matches_city : forall c d,
  mongo.matches {| mongo.filter_city := c |} d = true <-> City d = c.
Proof.
  intros c d. unfold mongo.matches. cbn. apply String.eqb_eq.
Qed.

Lemma find_UpdateOne : forall f u c,
  mongo.matches f (mongo.set u) = true ->
  find (mongo.matches f) (mongo.UpdateOne f u true c) = Some (mongo.set u).
Proof.
  intros f u c Hm. induction c as [|d rest IH]; cbn.
  - now rewrite Hm.
  - destruct (mongo.matches f d) eqn:E; cbn.
    + now rewrite Hm.
    + now rewrite E.
Qed.

Lemma FindOne_found : forall f c d,
  mongo.FindOne f c = inr d -> mongo.matches f d = true /\ In d c.
Proof.
  intros f c d. unfold mongo.FindOne.
  destruct (find (mongo.matches f) c) as [x|] eqn:E; [|discriminate].
  intros H. injection H as <-. apply find_some in E. tauto.
Qed.

Lemma records_of_cons : forall city d c,
  records_of city (d :: c) =
  ((if String.eqb (City d) city then 1 else 0) + records_of city c)%nat.
Proof.
  intros city d c. unfold records_of. cbn. unfold mongo.matches at 1. cbn.
  now destruct (String.eqb (City d) city).
Qed.

Lemma records_UpdateOne_same : forall d c,
  records_of (City d)
    (mongo.UpdateOne {| mongo.filter_city := City d |} {| mongo.set := d |} true c)
  = Nat.max 1 (records_of (City d) c).
Proof.
  intros d c. induction c as [|x rest IH].
  - cbn [mongo.UpdateOne mongo.set].
    rewrite records_of_cons, String.eqb_refl. reflexivity.
  - cbn [mongo.UpdateOne]. unfold mongo.matches at 1. cbn [mongo.filter_city].
    destruct (String.eqb (City x) (City d)) eqn:E.
    + rewrite !records_of_cons. cbn [mongo.set].
      rewrite E, String.eqb_refl. cbn. reflexivity.
    + rewrite !records_of_cons, E, IH. reflexivity.
Qed.

Lemma records_UpdateOne_other : forall city d c,
  city <> City d ->
  records_of city
    (mongo.UpdateOne {| mongo.filter_city := City d |} {| mongo.set := d |} true c)
  = records_of city c.
Proof.
  intros city d c Hne.
  assert (Hd : String.eqb (City d) city = false)
    by (apply String.eqb_neq; congruence).
  induction c as [|x rest IH].
  - cbn [mongo.UpdateOne mongo.set].
    rewrite records_of_cons, Hd. reflexivity.
  - cbn [mongo.UpdateOne]. unfold mongo.matches at 1. cbn [mongo.filter_city].
    destruct (String.eqb (City x) (City d)) eqn:E.
    + apply String.eqb_eq in E.
      rewrite !records_of_cons. cbn [mongo.set]. rewrite E, Hd. reflexivity.
    + rewrite !records_of_cons, IH. reflexivity.
Qed.

Lemma one_per_city_UpdateOne : forall d c,
  one_per_city c ->
  one_per_city
    (mongo.UpdateOne {| mongo.filter_city := City d |} {| mongo.set := d |} true c).
Proof.
  intros d c H city. destruct (string_dec city (City d)) as [->|Hne].
  - rewrite records_UpdateOne_same. specialize (H (City d)). lia.
  - rewrite records_UpdateOne_other by assumption. apply H.
Qed.

(** ** Running programs *)

Lemma run_bind : forall env (A B : Type) (p : prog A) (f : A -> prog B) s,
  run env (bind p f) s =
  match run env p s with
  | (Returned a, s') => run env (f a) s'
  | (Panicked msg, s') => (Panicked msg, s')
  end.
Proof.
  intros env A B p f. induction p as [a|msg|X c k IH]; intros s; cbn.
  - reflexivity.
  - reflexivity.
  - destruct (exec env c s) as [x s']. apply IH.
Qed.


Lemma run_http_Error : forall env msg code c ev,
  run env (http_Error msg code)
      {| collection := c; w := http.newWriter; calls := ev |}
  = (Returned tt,
     {| collection := c; w := errorWriter msg code; calls := ev |}).
Proof. reflexivity. Qed.

Lemma errorWriter_no_success : forall msg code d,
  ~ Spec.succeeds_with (errorWriter msg code) d.
Proof. intros msg code d [_ H]. discriminate H. Qed.

(** ** The handlers, branch by branch *)

Section HandlerFacts.

Context {J : JSON}.

Lemma get_empty_city : forall env r c,
  http.Values_Get (http.Query r) "city" = "" ->
  serve env (getWeatherHandler r) c
  = (Returned tt,
     {| collection := c;
        w := errorWriter "City parameter is required" 400;
        calls := [] |}).
Proof.
  intros env r c H. unfold serve, getWeatherHandler. rewrite H. reflexivity.
Qed.

Lemma get_lookup : forall env r c,
  http.Values_Get (http.Query r) "city" <> "" ->
  serve env (getWeatherHandler r) c
  = let city := http.Values_Get (http.Query r) "city" in
    let f := {| mongo.filter_city := city |} in
    match mongo_fault env with
    | Some _ =>
        (Returned tt,
         {| collection := c;
            w := errorWriter "Weather data not found" 404;
            calls := [EvFindOne f] |})
    | None =>
        match mongo.FindOne f c with
        | inl _ =>
            (Returned tt,
             {| collection := c;
                w := errorWriter "Weather data not found" 404;
                calls := [EvFindOne f] |})
        | inr weather =>
            (Returned tt,
             {| collection := c;
                w := {| http.header := [("Content-Type", "application/json")];
                        http.wroteHeader := Some 200;
                        http.body := [http.Encoded weather] |};
                calls := [EvFindOne f] |})
        end
    end.
Proof.
  intros env r c H. unfold serve, getWeatherHandler.
  apply String.eqb_neq in H. rewrite H. cbn.
  destruct (mongo_fault env); [reflexivity|].
  destruct (mongo.FindOne _ c); reflexivity.
Qed.

Lemma put_bad_body : forall env r baseURL apiKey c,
  Decode_requestBody (http.Body r) = None ->
  serve env (putWeatherHandler r baseURL apiKey) c
  = (Returned tt,
     {| collection := c;
        w := errorWriter "Invalid request body" 400;
        calls := [] |}).
Proof.
  intros env r baseURL apiKey c H. unfold serve, putWeatherHandler.
  rewrite H. reflexivity.
Qed.

Lemma put_empty_city : forall env r baseURL apiKey c rb,
  Decode_requestBody (http.Body r) = Some rb ->
  requestBody_City rb = "" ->
  serve env (putWeatherHandler r baseURL apiKey) c
  = (Returned tt,
     {| collection := c;
        w := errorWriter "City is required" 400;
        calls := [] |}).
Proof.
  intros env r baseURL apiKey c rb H E. unfold serve, putWeatherHandler.
  rewrite H, E. reflexivity.
Qed.


Lemma put_fetch : forall env r baseURL apiKey c rb,
  Decode_requestBody (http.Body r) = Some rb ->
  requestBody_City rb <> "" ->
  serve env (putWeatherHandler r baseURL apiKey) c
  = afterFetch env (searchURL baseURL apiKey (requestBody_City rb)) c.
Proof.
  intros env r baseURL apiKey c rb H E.
  unfold serve, putWeatherHandler, afterFetch.
  apply String.eqb_neq in E. rewrite H, E.
  generalize (searchURL baseURL apiKey (requestBody_City rb)); intros url.
  cbn. destruct (provider env url) as [e|response]; [reflexivity|].
  unfold http.StatusOK.
  destruct (http.StatusCode response =? 200); [|reflexivity].
  cbn. destruct (Unmarshal_weatherjson (http.RespBody response)) as [wj|];
    [|reflexivity].
  destruct (Weather wj) as [|first rest]; cbn.
  - reflexivity.
  - destruct (mongo_fault env); reflexivity.
Qed.

End HandlerFacts.

Section Inversion.

Context {J : JSON}.


Ltac no_success :=
  match goal with
  | H : (_, _) = (_, ?s), S : Spec.succeeds_with (w ?s) _ |- _ =>
      injection H as <- <-; cbn in S;
      solve [ destruct (errorWriter_no_success _ _ _ S)
            | destruct S as [S _]; discriminate S ]
  end.

Lemma put_success : forall env r baseURL apiKey c rb response wj first rest,
  Decode_requestBody (http.Body r) = Some rb ->
  requestBody_City rb <> "" ->
  provider env (searchURL baseURL apiKey (requestBody_City rb)) = inr response ->
  http.StatusCode response = 200 ->
  Unmarshal_weatherjson (http.RespBody response) = Some wj ->
  Weather wj = first :: rest ->
  mongo_fault env = None ->
  serve env (putWeatherHandler r baseURL apiKey) c
  = (Returned tt,
     stored (searchURL baseURL apiKey (requestBody_City rb))
            (recordOf wj first (clock env)) c).
Proof.
  intros env r baseURL apiKey c rb response wj first rest
         Hdec Hcity Hprov Hcode Hparse Hw Hdb.
  rewrite (put_fetch _ _ _ _ _ _ Hdec Hcity). unfold afterFetch.
  rewrite Hprov, Hcode, Hparse, Hw, Hdb. reflexivity.
Qed.

Lemma put_success_inv : forall env r baseURL apiKey c res s d,
  serve env (putWeatherHandler r baseURL apiKey) c = (res, s) ->
  Spec.succeeds_with (w s) d ->
  exists rb response wj first rest,
    Decode_requestBody (http.Body r) = Some rb /\
    requestBody_City rb <> "" /\
    provider env (searchURL baseURL apiKey (requestBody_City rb))
      = inr response /\
    http.StatusCode response = 200 /\
    Unmarshal_weatherjson (http.RespBody response) = Some wj /\
    Weather wj = first :: rest /\
    mongo_fault env = None /\
    d = recordOf wj first (clock env) /\
    res = Returned tt /\
    s = stored (searchURL baseURL apiKey (requestBody_City rb)) d c.
Proof.
  intros env r baseURL apiKey c res s d Hrun Hok.
  destruct (Decode_requestBody (http.Body r)) as [rb|] eqn:Hdec.
  2:{ rewrite (put_bad_body _ _ _ _ _ Hdec) in Hrun. no_success. }
  destruct (string_dec (requestBody_City rb) "") as [Hcity|Hcity].
  { rewrite (put_empty_city _ _ _ _ _ _ Hdec Hcity) in Hrun. no_success. }
  rewrite (put_fetch _ _ _ _ _ _ Hdec Hcity) in Hrun.
  unfold afterFetch in Hrun.
  destruct (provider env _) as [e|response] eqn:Hprov; [no_success|].
  destruct (http.StatusCode response =? 200) eqn:Hcode; [|no_success].
  apply Z.eqb_eq in Hcode.
  destruct (Unmarshal_weatherjson (http.RespBody response)) as [wj|] eqn:Hparse;
    [|no_success].
  destruct (Weather wj) as [|first rest] eqn:Hw; [no_success|].
  destruct (mongo_fault env) eqn:Hdb; [no_success|].
  injection Hrun as <- <-. destruct Hok as [_ Hbody]. cbn in Hbody.
  injection Hbody as <-.
  exists rb, response, wj, first, rest. repeat split; assumption.
Qed.

Lemma put_collection : forall env r baseURL apiKey c res s,
  serve env (putWeatherHandler r baseURL apiKey) c = (res, s) ->
  collection s = c \/
  exists d, collection s =
    mongo.UpdateOne {| mongo.filter_city := City d |} {| mongo.set := d |} true c.
Proof.
  intros env r baseURL apiKey c res s Hrun.
  destruct (Decode_requestBody (http.Body r)) as [rb|] eqn:Hdec.
  2:{ rewrite (put_bad_body _ _ _ _ _ Hdec) in Hrun.
      injection Hrun as <- <-. now left. }
  destruct (string_dec (requestBody_City rb) "") as [Hcity|Hcity].
  { rewrite (put_empty_city _ _ _ _ _ _ Hdec Hcity) in Hrun.
    injection Hrun as <- <-. now left. }
  rewrite (put_fetch _ _ _ _ _ _ Hdec Hcity) in Hrun.
  unfold afterFetch in Hrun.
  destruct (provider env _) as [e|response];
    [injection Hrun as <- <-; now left|].
  destruct (http.StatusCode response =? 200);
    [|injection Hrun as <- <-; now left].
  destruct (Unmarshal_weatherjson (http.RespBody response)) as [wj|];
    [|injection Hrun as <- <-; now left].
  destruct (Weather wj) as [|first rest];
    [injection Hrun as <- <-; now left|].
  destruct (mongo_fault env); injection Hrun as <- <-; [now left|].
  right. exists (recordOf wj first (clock env)). reflexivity.
Qed.

Lemma get_collection : forall env r c res s,
  serve env (getWeatherHandler r) c = (res, s) -> collection s = c.
Proof.
  intros env r c res s Hrun.
  destruct (string_dec (http.Values_Get (http.Query r) "city") "") as [E|E].
  - rewrite (get_empty_city _ _ _ E) in Hrun. now injection Hrun as <- <-.
  - rewrite (get_lookup _ _ _ E) in Hrun. cbn zeta in Hrun.
    destruct (mongo_fault env); [now injection Hrun as <- <-|].
    destruct (mongo.FindOne _ c); now injection Hrun as <- <-.
Qed.

Lemma step_one_per_city : forall baseURL apiKey c c',
  step baseURL apiKey c c' -> one_per_city c -> one_per_city c'.
Proof.
  intros baseURL apiKey c c' [c0 env r res s Hrun] Hinv.
  unfold weatherRoute in Hrun.
  destruct (String.eqb (http.Method r) http.MethodGet).
  - now rewrite (get_collection _ _ _ _ _ Hrun).
  - destruct (String.eqb (http.Method r) http.MethodPut).
    + destruct (put_collection _ _ _ _ _ _ _ Hrun) as [->|[d ->]];
        [assumption|now apply one_per_city_UpdateOne].
    + unfold serve, initial in Hrun. rewrite run_http_Error in Hrun.
      now injection Hrun as <- <-.
Qed.

End Inversion.

(** ** Input validation *)



(** The scanner on the documents used here. *)
Example json_Valid_examples :
  map json.Valid [cityDoc "Paris"; parisDoc; noConditionsDoc; "{}"]
  = [true; true; true; true] /\
  map json.Valid [""; "{"; "{}}"; "city=Paris"; trailingDoc]
  = [false; false; false; false; false].
Proof. split; reflexivity. Qed.


(** ** Upstream failures *)

(** C8. When the provider call fails in transport the write is answered
    500 with the line of UpstreamUnavailable; when the provider answers
    with a status other than 200 it is answered 500 with the line of
    UpstreamError.  In both cases the provider call is the only call made
    and the collection is as before. *)
Theorem upstream_failures {J : JSON} : forall env r baseURL apiKey c rb,
  Decode_requestBody (http.Body r) = Some rb ->
  requestBody_City rb <> "" ->
  let url := searchURL baseURL apiKey (requestBody_City rb) in
  let out := serve env (putWeatherHandler r baseURL apiKey) c in
  (forall e, provider env url = inl e ->
     failed out Spec.UpstreamUnavailable /\ status out = Some 500 /\
     calls (snd out) = [EvGet url] /\ collection (snd out) = c)
  /\
  (forall response, provider env url = inr response ->
     http.StatusCode response <> 200 ->
     failed out Spec.UpstreamError /\ status out = Some 500 /\
     calls (snd out) = [EvGet url] /\ collection (snd out) = c).
Proof.
  intros env r baseURL apiKey c rb Hdec Hcity url out. subst out.
  rewrite (put_fetch _ _ _ _ _ _ Hdec Hcity). fold url. unfold afterFetch.
  split.
  - intros e He. rewrite He. repeat split.
  - intros response Hr Hcode. rewrite Hr.
    apply Z.eqb_neq in Hcode. rewrite Hcode. repeat split.
Qed.


Lemma upstream_failures_witness :
  (let out := serve downEnv
                (putWeatherHandler (J:=demoJSON) (putRequest (cityDoc "Paris"))
                                   demoBase demoKey) [] in
   failed out Spec.UpstreamUnavailable /\ status out = Some 500 /\
   calls (snd out) = [EvGet (searchURL demoBase demoKey "Paris")] /\
   collection (snd out) = [])
  /\
  (let out := serve (demoEnv parisDoc None)
                (putWeatherHandler (J:=demoJSON) (putRequest (cityDoc "Paris"))
                                   "http://elsewhere.test" demoKey) [] in
   failed out Spec.UpstreamError /\ status out = Some 500 /\
   calls (snd out) = [EvGet (searchURL "http://elsewhere.test" demoKey "Paris")] /\
   collection (snd out) = []).
Proof.
  split.
  - refine (proj1 (upstream_failures (J:=demoJSON) downEnv
                     (putRequest (cityDoc "Paris")) demoBase demoKey []
                     {| requestBody_City := "Paris" |} eq_refl _) _ eq_refl).
    discriminate.
  - refine (proj2 (upstream_failures (J:=demoJSON) (demoEnv parisDoc None)
                     (putRequest (cityDoc "Paris")) "http://elsewhere.test"
                     demoKey [] {| requestBody_City := "Paris" |} eq_refl _)
                  {| http.StatusCode := 404; http.RespBody := "" |} eq_refl _).
    + discriminate.
    + discriminate.
Defined.

(** ** An empty conditions list *)

(** C1. What the handler does when the provider's document decodes with
    an empty conditions list: indexing the first condition panics.  No
    response is written (so none of class UpstreamParseError), the
    provider call is the only call made and nothing is stored. *)
Theorem put_empty_conditions_panics {J : JSON} :
  forall env r baseURL apiKey c rb response wj,
  Decode_requestBody (http.Body r) = Some rb ->
  requestBody_City rb <> "" ->
  provider env (searchURL baseURL apiKey (requestBody_City rb)) = inr response ->
  http.StatusCode response = 200 ->
  Unmarshal_weatherjson (http.RespBody response) = Some wj ->
  Weather wj = [] ->
  let out := serve env (putWeatherHandler r baseURL apiKey) c in
  fst out = Panicked "runtime error: index out of range" /\
  w (snd out) = http.newWriter /\
  Spec.fails_with (w (snd out)) Spec.UpstreamParseError = false /\
  calls (snd out)
    = [EvGet (searchURL baseURL apiKey (requestBody_City rb))] /\
  collection (snd out) = c.
Proof.
  intros env r baseURL apiKey c rb response wj Hdec Hcity Hprov Hcode Hparse Hw
         out.
  subst out. rewrite (put_fetch _ _ _ _ _ _ Hdec Hcity). unfold afterFetch.
  rewrite Hprov, Hcode, Hparse, Hw. repeat split.
Qed.

Lemma put_empty_conditions_panics_witness :
  let out := serve (demoEnv noConditionsDoc None)
               (putWeatherHandler (J:=demoJSON) (putRequest (cityDoc "Paris"))
                                  demoBase demoKey) [] in
  fst out = Panicked "runtime error: index out of range" /\
  w (snd out) = http.newWriter /\
  Spec.fails_with (w (snd out)) Spec.UpstreamParseError = false /\
  calls (snd out) = [EvGet (searchURL demoBase demoKey "Paris")] /\
  collection (snd out) = [].
Proof.
  refine (put_empty_conditions_panics (J:=demoJSON)
            (demoEnv noConditionsDoc None) (putRequest (cityDoc "Paris"))
            demoBase demoKey [] {| requestBody_City := "Paris" |}
            {| http.StatusCode := 200; http.RespBody := noConditionsDoc |}
            noConditionsJSON eq_refl _ eq_refl eq_refl eq_refl eq_refl).
  discriminate.
Defined.

(** ** Failures of the read path *)

(** C5. What [getWeatherHandler] answers when the lookup goes wrong.  A
    lookup that fails in the database is answered 404 with the line of
    NotFound, not 500 (StorageError); so is a lookup that finds no
    record. *)
Theorem get_lookup_failures : forall env r c,
  http.Values_Get (http.Query r) "city" <> "" ->
  let out := serve env (getWeatherHandler r) c in
  (forall e, mongo_fault env = Some e ->
     failed out Spec.NotFound /\ status out = Some 404 /\
     Spec.fails_with (w (snd out)) Spec.StorageError = false)
  /\
  (mongo_fault env = None ->
   records_of (http.Values_Get (http.Query r) "city") c = 0%nat ->
   failed out Spec.NotFound /\ status out = Some 404).
Proof.
  intros env r c Hcity out. subst out. rewrite (get_lookup _ _ _ Hcity).
  cbn zeta. split.
  - intros e He. rewrite He. repeat split.
  - intros Hdb Hnone. rewrite Hdb. unfold mongo.FindOne.
    destruct (find _ c) as [d|] eqn:E; [|repeat split].
    exfalso. apply find_some in E. destruct E as [Hin Hm].
    unfold records_of in Hnone. apply length_zero_iff_nil in Hnone.
    assert (Hf : In d (filter (mongo.matches
               {| mongo.filter_city := http.Values_Get (http.Query r) "city" |}) c))
      by (apply filter_In; split; assumption).
    rewrite Hnone in Hf. exact Hf.
Qed.

Lemma get_lookup_failures_witness :
  (let out := serve (demoEnv parisDoc (Some "context deadline exceeded"))
                    (getWeatherHandler (getRequest "Paris")) [] in
   failed out Spec.NotFound /\ status out = Some 404 /\
   Spec.fails_with (w (snd out)) Spec.StorageError = false)
  /\
  (let out := serve (demoEnv parisDoc None)
                    (getWeatherHandler (getRequest "Paris")) [] in
   failed out Spec.NotFound /\ status out = Some 404).
Proof.
  split.
  - refine (proj1 (get_lookup_failures
                     (demoEnv parisDoc (Some "context deadline exceeded"))
                     (getRequest "Paris") [] _)
                  "context deadline exceeded" eq_refl).
    discriminate.
  - refine (proj2 (get_lookup_failures (demoEnv parisDoc None)
                     (getRequest "Paris") [] _) eq_refl eq_refl).
    discriminate.
Defined.

(** ** The read path returns the city it was asked for *)

(** C9. When a read for a non-empty city [c0] is answered 200, the record
    in the response has [City] equal to [c0], character for character, and
    is a record of the collection. *)
Theorem get_returns_queried_city : forall env r c res s d,
  http.Values_Get (http.Query r) "city" <> "" ->
  serve env (getWeatherHandler r) c = (res, s) ->
  Spec.succeeds_with (w s) d ->
  City d = http.Values_Get (http.Query r) "city" /\ In d c.
Proof.
  intros env r c res s d Hcity Hrun [Hst Hbody].
  rewrite (get_lookup _ _ _ Hcity) in Hrun. cbn zeta in Hrun.
  destruct (mongo_fault env); [injection Hrun as <- <-; discriminate Hbody|].
  destruct (mongo.FindOne _ c) as [e|x] eqn:E;
    injection Hrun as <- <-; [discriminate Hbody|].
  cbn in Hbody. injection Hbody as <-.
  apply FindOne_found in E. destruct E as [Hm Hin].
  split; [now apply matches_city|assumption].
Qed.


Lemma get_returns_queried_city_witness :
  City parisRecord = "Paris" /\ In parisRecord [parisRecord].
Proof.
  refine (get_returns_queried_city (demoEnv parisDoc None) (getRequest "Paris")
            [parisRecord] _ _ parisRecord _ eq_refl _).
  - discriminate.
  - split; reflexivity.
Defined.

(** The lookup is case-sensitive: a record of "Paris" does not answer a
    read for "paris". *)
Example get_case_sensitive :
  status (serve (demoEnv parisDoc None) (getWeatherHandler (getRequest "paris"))
                [parisRecord]) = Some 404.
Proof. reflexivity. Qed.

(** ** What a successful write stores *)

(** C7. Whenever a write is answered 200 with record [d], the provider's
    document decoded to some [wj] with [City d = Name wj], whatever city
    the request named; the one database call is an upsert whose filter is
    that name, and afterwards the lookup by that name yields [d]. *)
Theorem stored_city_is_provider_name {J : JSON} :
  forall env r baseURL apiKey c res s d,
  serve env (putWeatherHandler r baseURL apiKey) c = (res, s) ->
  Spec.succeeds_with (w s) d ->
  exists rb response wj,
    Decode_requestBody (http.Body r) = Some rb /\
    provider env (searchURL baseURL apiKey (requestBody_City rb))
      = inr response /\
    Unmarshal_weatherjson (http.RespBody response) = Some wj /\
    City d = Name wj /\
    calls s = [EvGet (searchURL baseURL apiKey (requestBody_City rb));
               EvUpdateOne {| mongo.filter_city := Name wj |}
                           {| mongo.set := d |} true] /\
    mongo.FindOne {| mongo.filter_city := Name wj |} (collection s) = inr d.
Proof.
  intros env r baseURL apiKey c res s d Hrun Hok.
  destruct (put_success_inv _ _ _ _ _ _ _ _ Hrun Hok)
    as (rb & response & wj & first & rest & Hdec & Hcity & Hprov & Hcode
        & Hparse & Hw & Hdb & Hd & Hres & Hs).
  exists rb, response, wj. subst d s. cbn.
  repeat split; try assumption.
  unfold mongo.FindOne. rewrite find_UpdateOne; [reflexivity|].
  apply matches_city. reflexivity.
Qed.

Lemma stored_city_is_provider_name_witness :
  exists rb response wj,
    Decode_requestBody (JSON:=demoJSON) (cityDoc "paris") = Some rb /\
    demoProvider parisDoc (searchURL demoBase demoKey (requestBody_City rb))
      = inr response /\
    Unmarshal_weatherjson (JSON:=demoJSON) (http.RespBody response) = Some wj /\
    City parisRecord = Name wj /\
    calls (stored (searchURL demoBase demoKey "paris") parisRecord [])
    = [EvGet (searchURL demoBase demoKey (requestBody_City rb));
       EvUpdateOne {| mongo.filter_city := Name wj |}
                   {| mongo.set := parisRecord |} true] /\
    mongo.FindOne {| mongo.filter_city := Name wj |} [parisRecord]
    = inr parisRecord.
Proof.
  refine (stored_city_is_provider_name (J:=demoJSON) (demoEnv parisDoc None)
            (putRequest (cityDoc "paris")) demoBase demoKey [] _ _ parisRecord
            eq_refl _).
  split; reflexivity.
Defined.

(** C3. Whenever a write is answered 200 with record [d], [Temp d] is the
    float64 difference of the provider's temperature and the float64
    constant 273.15, and [d] is the record then found under its city.  The
    constant is within 2^-45 of 273.15; for the provider value 300.0 the
    stored temperature is within 1e-9 of 26.85. *)
Theorem stored_temperature_celsius {J : JSON} :
  forall env r baseURL apiKey c res s d,
  serve env (putWeatherHandler r baseURL apiKey) c = (res, s) ->
  Spec.succeeds_with (w s) d ->
  exists rb response wj,
    Decode_requestBody (http.Body r) = Some rb /\
    provider env (searchURL baseURL apiKey (requestBody_City rb))
      = inr response /\
    Unmarshal_weatherjson (http.RespBody response) = Some wj /\
    Temp d = PrimFloat.sub (Main_Temp (Main wj)) kelvinOffset /\
    mongo.FindOne {| mongo.filter_city := City d |} (collection s) = inr d /\
    within (1 # 2 ^ 45) kelvinOffset (27315 # 100) = true /\
    (Main_Temp (Main wj) = 300%float ->
     within (1 # 10 ^ 9) (Temp d) (2685 # 100) = true).
Proof.
  intros env r baseURL apiKey c res s d Hrun Hok.
  destruct (put_success_inv _ _ _ _ _ _ _ _ Hrun Hok)
    as (rb & response & wj & first & rest & Hdec & Hcity & Hprov & Hcode
        & Hparse & Hw & Hdb & Hd & Hres & Hs).
  exists rb, response, wj. subst d s. cbn [Temp recordOf stored collection].
  split; [assumption|]. split; [assumption|]. split; [assumption|].
  split; [reflexivity|]. split; [|split].
  - unfold mongo.FindOne. rewrite find_UpdateOne; [reflexivity|].
    apply matches_city. reflexivity.
  - vm_compute. reflexivity.
  - intros H. rewrite H. vm_compute. reflexivity.
Qed.

Lemma stored_temperature_celsius_witness :
  exists rb response wj,
    Decode_requestBody (JSON:=demoJSON) (cityDoc "Paris") = Some rb /\
    demoProvider parisDoc (searchURL demoBase demoKey (requestBody_City rb))
      = inr response /\
    Unmarshal_weatherjson (JSON:=demoJSON) (http.RespBody response) = Some wj /\
    Temp parisRecord = PrimFloat.sub (Main_Temp (Main wj)) kelvinOffset /\
    mongo.FindOne {| mongo.filter_city := City parisRecord |} [parisRecord]
    = inr parisRecord /\
    within (1 # 2 ^ 45) kelvinOffset (27315 # 100) = true /\
    (Main_Temp (Main wj) = 300%float ->
     within (1 # 10 ^ 9) (Temp parisRecord) (2685 # 100) = true).
Proof.
  refine (stored_temperature_celsius (J:=demoJSON) (demoEnv parisDoc None)
            (putRequest (cityDoc "Paris")) demoBase demoKey [] _ _ parisRecord
            eq_refl _).
  split; reflexivity.
Defined.

(** The stored temperature is not the float64 nearest to 26.85: the
    tolerance is needed. *)
Example stored_temperature_inexact :
  PrimFloat.eqb (Temp parisRecord) 0x1.ad9999999999ap+4 = false /\
  within (1 # 10 ^ 9) (Temp parisRecord) (2685 # 100) = true.
Proof. split; vm_compute; reflexivity. Qed.

(** ** Read after write *)

(** C2. A write for a non-empty city whose provider document decodes with
    a first condition and a non-empty name, with the database reachable,
    is answered 200; a read for the provider's name that follows at once
    is answered 200 with the record just written, whose description is
    that of the first condition and whose temperature is the provider's
    minus 273.15. *)
Theorem read_after_write {J : JSON} :
  forall env r baseURL apiKey c rb response wj first rest env' r',
  Decode_requestBody (http.Body r) = Some rb ->
  requestBody_City rb <> "" ->
  provider env (searchURL baseURL apiKey (requestBody_City rb)) = inr response ->
  http.StatusCode response = 200 ->
  Unmarshal_weatherjson (http.RespBody response) = Some wj ->
  Weather wj = first :: rest ->
  Name wj <> "" ->
  mongo_fault env = None ->
  mongo_fault env' = None ->
  http.Values_Get (http.Query r') "city" = Name wj ->
  exists d,
    let put := serve env (putWeatherHandler r baseURL apiKey) c in
    let get := serve env' (getWeatherHandler r') (collection (snd put)) in
    succeeded put d /\
    succeeded get d /\
    Description d = Weather_Description first /\
    Temp d = PrimFloat.sub (Main_Temp (Main wj)) kelvinOffset.
Proof.
  intros env r baseURL apiKey c rb response wj first rest env' r'
         Hdec Hcity Hprov Hcode Hparse Hw Hname Hdb Hdb' Hq.
  exists (recordOf wj first (clock env)). cbn zeta.
  rewrite (put_success _ _ _ _ _ _ _ _ _ _ Hdec Hcity Hprov Hcode Hparse Hw Hdb).
  split; [repeat split|].
  rewrite get_lookup by (rewrite Hq; exact Hname).
  cbn zeta. rewrite Hdb', Hq. cbn [snd stored collection recordOf City].
  unfold mongo.FindOne. rewrite find_UpdateOne by (apply matches_city; reflexivity).
  repeat split.
Qed.

Lemma read_after_write_witness :
  exists d,
    let put := serve (demoEnv parisDoc None)
                 (putWeatherHandler (J:=demoJSON) (putRequest (cityDoc "paris"))
                                    demoBase demoKey) [] in
    let get := serve (demoEnv parisDoc None) (getWeatherHandler (getRequest "Paris"))
                 (collection (snd put)) in
    succeeded put d /\
    succeeded get d /\
    Description d = "clear sky" /\
    Temp d = PrimFloat.sub 300 kelvinOffset.
Proof.
  refine (read_after_write (J:=demoJSON) (demoEnv parisDoc None)
            (putRequest (cityDoc "paris")) demoBase demoKey []
            {| requestBody_City := "paris" |}
            {| http.StatusCode := 200; http.RespBody := parisDoc |}
            parisJSON {| Weather_Description := "clear sky" |} []
            (demoEnv parisDoc None) (getRequest "Paris")
            eq_refl _ eq_refl eq_refl eq_refl eq_refl _ eq_refl eq_refl eq_refl);
    discriminate.
Defined.

(** ** The provider query *)

(** C10. The URL handed to [http.Get] is the base URL, ["?appid="], the
    key, ["&q="] and the city, joined as they are; the city reaches the
    provider call unescaped.  So a city with ['&'] adds a query parameter,
    one with ['#'] moves its tail into the fragment, and a space stays a
    space. *)
Theorem provider_url_is_concatenation {J : JSON} : forall baseURL apiKey city,
  searchURL baseURL apiKey city
    = baseURL ++ "?appid=" ++ apiKey ++ "&q=" ++ city
  /\
  (forall env r c rb,
     Decode_requestBody (http.Body r) = Some rb ->
     requestBody_City rb = city ->
     city <> "" ->
     exists later,
       calls (snd (serve env (putWeatherHandler r baseURL apiKey) c))
       = EvGet (baseURL ++ "?appid=" ++ apiKey ++ "&q=" ++ city) :: later)
  /\
  queryParams (searchURL demoBase demoKey "Paris")
    = ["appid=k"; "q=Paris"]
  /\
  queryParams (searchURL demoBase demoKey "Paris&appid=other")
    = ["appid=k"; "q=Paris"; "appid=other"]
  /\
  queryParams (searchURL demoBase demoKey "Paris#&units=metric")
    = ["appid=k"; "q=Paris"]
  /\
  searchURL demoBase demoKey "New York"
    = "http://api.test/weather?appid=k&q=New York".
Proof.
  intros baseURL apiKey city.
  assert (Hurl : searchURL baseURL apiKey city
                 = baseURL ++ "?appid=" ++ apiKey ++ "&q=" ++ city).
  { unfold searchURL. cbn.
    assert (Hnil : forall s : string, s ++ "" = s)
      by (induction s as [|a s IH]; cbn; [|rewrite IH]; reflexivity).
    now rewrite Hnil. }
  split; [exact Hurl|]. split; [|repeat split].
  intros env r c rb Hdec Hrb Hcity. subst city.
  rewrite (put_fetch _ _ _ _ _ _ Hdec Hcity), Hurl. unfold afterFetch.
  destruct (provider env _) as [e|response]; [eexists; reflexivity|].
  destruct (http.StatusCode response =? 200); [|eexists; reflexivity].
  destruct (Unmarshal_weatherjson _) as [wj|]; [|eexists; reflexivity].
  destruct (Weather wj); [eexists; reflexivity|].
  destruct (mongo_fault env); eexists; reflexivity.
Qed.

Lemma provider_url_is_concatenation_witness :
  exists later,
    calls (snd (serve (demoEnv parisDoc None)
                  (putWeatherHandler (J:=demoJSON) (putRequest (cityDoc "Paris"))
                                     demoBase demoKey) []))
    = EvGet (demoBase ++ "?appid=" ++ demoKey ++ "&q=" ++ "Paris") :: later.
Proof.
  refine (proj1 (proj2 (provider_url_is_concatenation (J:=demoJSON)
                          demoBase demoKey "Paris"))
                (demoEnv parisDoc None) (putRequest (cityDoc "Paris")) []
                {| requestBody_City := "Paris" |} eq_refl eq_refl _).
  discriminate.
Defined.

(** ** One record per city *)

Section OnePerCity.

Context {J : JSON}.
Variables baseURL apiKey : string.

Lemma wrote_records : forall city c n c',
  wrote baseURL apiKey city c n c' ->
  records_of city c' =
  match n with
  | O => records_of city c
  | S _ => Nat.max 1 (records_of city c)
  end.
Proof.
  intros city c n c' H.
  induction H as [c|c n c1 env r d s Hprev IH Hrun Hok Hcity].
  - reflexivity.
  - destruct (put_success_inv _ _ _ _ _ _ _ _ Hrun Hok)
      as (rb & response & wj & first & rest & _ & _ & _ & _ & _ & _ & _
          & _ & _ & Hs).
    rewrite Hs. cbn [stored collection]. subst city.
    rewrite records_UpdateOne_same, IH.
    destruct n; lia.
Qed.

Lemma wrote_one_per_city : forall city c n c',
  wrote baseURL apiKey city c n c' -> one_per_city c -> one_per_city c'.
Proof.
  intros city c n c' H Hinv.
  induction H as [c|c n c1 env r d s Hprev IH Hrun Hok Hcity].
  - assumption.
  - destruct (put_success_inv _ _ _ _ _ _ _ _ Hrun Hok)
      as (rb & response & wj & first & rest & _ & _ & _ & _ & _ & _ & _
          & _ & _ & Hs).
    rewrite Hs. cbn [stored collection].
    apply one_per_city_UpdateOne. apply IH. assumption.
Qed.

(** Every collection the service builds from the empty one, request
    after request, holds at most one record per city. *)
Lemma reachable_one_per_city : forall c,
  Relation_Operators.clos_refl_trans_n1 _ (step baseURL apiKey) [] c ->
  one_per_city c.
Proof.
  intros c H. induction H as [|c1 c2 Hstep Hreach IH].
  - intros city. cbn. lia.
  - eapply step_one_per_city; eassumption.
Qed.

End OnePerCity.

(** C4. After [n >= 1] successful writes in a row that all resolve to
    [city], a collection that held at most one record of [city] holds
    exactly one; and a collection with at most one record per city still
    has at most one record per city after the writes. *)
Theorem one_record_per_city {J : JSON} : forall baseURL apiKey city c n c',
  wrote baseURL apiKey city c n c' ->
  ((records_of city c <= 1)%nat -> (1 <= n)%nat ->
   records_of city c' = 1%nat)
  /\
  (one_per_city c -> one_per_city c').
Proof.
  intros baseURL apiKey city c n c' H. split.
  - intros Hc Hn. rewrite (wrote_records _ _ _ _ _ _ H).
    destruct n; lia.
  - apply (wrote_one_per_city _ _ _ _ _ _ H).
Qed.

(** [UpdateOne] rewrites one document: records of a city that were
    already duplicated before the write stay duplicated. *)
Example duplicates_are_kept :
  records_of "Paris"
    (collection (snd (serve (demoEnv parisDoc None)
       (putWeatherHandler (J:=demoJSON) (putRequest (cityDoc "Paris"))
                          demoBase demoKey)
       [parisRecord; parisRecord]))) = 2%nat.
Proof. reflexivity. Qed.

(** Three writes for Paris, the second under another spelling. *)
Lemma wrote_paris_thrice :
  wrote (J:=demoJSON) demoBase demoKey "Paris" [] 3 [parisRecord].
Proof.
  pose (env := demoEnv parisDoc None).
  assert (H1 : wrote (J:=demoJSON) demoBase demoKey "Paris" [] 1 [parisRecord]).
  { apply (wrote_S demoBase demoKey "Paris" [] 0 [] env
                   (putRequest (cityDoc "Paris")) parisRecord
                   (stored (searchURL demoBase demoKey "Paris") parisRecord [])).
    - constructor.
    - reflexivity.
    - split; reflexivity.
    - reflexivity. }
  assert (H2 : wrote (J:=demoJSON) demoBase demoKey "Paris" [] 2 [parisRecord]).
  { apply (wrote_S demoBase demoKey "Paris" [] 1 [parisRecord] env
                   (putRequest (cityDoc "paris")) parisRecord
                   (stored (searchURL demoBase demoKey "paris") parisRecord
                           [parisRecord])).
    - exact H1.
    - reflexivity.
    - split; reflexivity.
    - reflexivity. }
  apply (wrote_S demoBase demoKey "Paris" [] 2 [parisRecord] env
                 (putRequest (cityDoc "Paris")) parisRecord
                 (stored (searchURL demoBase demoKey "Paris") parisRecord
                         [parisRecord])).
  - exact H2.
  - reflexivity.
  - split; reflexivity.
  - reflexivity.
Defined.

Lemma one_record_per_city_witness :
  records_of "Paris" [parisRecord] = 1%nat /\ one_per_city [parisRecord].
Proof.
  destruct (one_record_per_city (J:=demoJSON) demoBase demoKey "Paris" [] 3
              [parisRecord] wrote_paris_thrice) as [Hone Hinv].
  split.
  - apply Hone; cbn; lia.
  - apply Hinv. intros city. cbn. lia.
Defined.

(** * Further properties of the handlers *)

(** ** More on the collection *)

Lemma In_UpdateOne : forall f u c x,
  In x (mongo.UpdateOne f u true c) -> x = mongo.set u \/ In x c.
Proof.
  intros f u c x. induction c as [|d rest IH]; cbn.
  - intros [H|[]]. now left.
  - destruct (mongo.matches f d); cbn.
    + intros [H|H]; [now left|right; now right].
    + intros [H|H]; [right; now left|].
      destruct (IH H) as [E|E]; [now left|right; now right].
Qed.

Lemma find_UpdateOne_other : forall q d c,
  q <> City d ->
  find (mongo.matches {| mongo.filter_city := q |})
       (mongo.UpdateOne {| mongo.filter_city := City d |} {| mongo.set := d |}
                        true c)
  = find (mongo.matches {| mongo.filter_city := q |}) c.
Proof.
  intros q d c Hne.
  assert (Hd : mongo.matches {| mongo.filter_city := q |} d = false).
  { unfold mongo.matches. cbn. apply String.eqb_neq. congruence. }
  induction c as [|x rest IH]; cbn [mongo.UpdateOne mongo.set find].
  - now rewrite Hd.
  - destruct (mongo.matches {| mongo.filter_city := City d |} x) eqn:E.
    + apply matches_city in E. cbn [find]. rewrite Hd.
      assert (Hx : mongo.matches {| mongo.filter_city := q |} x = false).
      { unfold mongo.matches. cbn. apply String.eqb_neq. congruence. }
      now rewrite Hx.
    + cbn [find]. now rewrite IH.
Qed.

Lemma length_UpdateOne : forall d c,
  length (mongo.UpdateOne {| mongo.filter_city := City d |} {| mongo.set := d |}
                          true c)
  = (length c + if Nat.eqb (records_of (City d) c) 0 then 1 else 0)%nat.
Proof.
  intros d c. induction c as [|x rest IH]; cbn [mongo.UpdateOne mongo.set].
  - reflexivity.
  - unfold mongo.matches at 1. cbn [mongo.filter_city].
    rewrite records_of_cons.
    destruct (String.eqb (City x) (City d)); cbn [length].
    + cbn. lia.
    + rewrite IH. cbn. lia.
Qed.

Lemma UpdateOne_again : forall d c,
  let f := {| mongo.filter_city := City d |} in
  let u := {| mongo.set := d |} in
  mongo.UpdateOne f u true (mongo.UpdateOne f u true c)
  = mongo.UpdateOne f u true c.
Proof.
  intros d c f u.
  assert (Hd : mongo.matches f d = true) by (apply matches_city; reflexivity).
  induction c as [|x rest IH]; cbn.
  - now rewrite Hd.
  - destruct (mongo.matches f x) eqn:E; cbn.
    + now rewrite Hd.
    + now rewrite E, IH.
Qed.

Lemma records_UpdateOne_ge : forall city d c,
  (records_of city c <=
   records_of city
     (mongo.UpdateOne {| mongo.filter_city := City d |} {| mongo.set := d |}
                      true c))%nat.
Proof.
  intros city d c. destruct (string_dec city (City d)) as [->|Hne].
  - rewrite records_UpdateOne_same. lia.
  - rewrite records_UpdateOne_other by assumption. lia.
Qed.

(** ** Every way [putWeatherHandler] can go *)

Lemma put_cases {J : JSON} : forall env r baseURL apiKey c,
  PutCase env r baseURL apiKey c
          (serve env (putWeatherHandler r baseURL apiKey) c).
Proof.
  intros env r baseURL apiKey c.
  destruct (Decode_requestBody (http.Body r)) as [rb|] eqn:Hdec.
  2:{ rewrite (put_bad_body _ _ _ _ _ Hdec). now constructor. }
  destruct (string_dec (requestBody_City rb) "") as [Hcity|Hcity].
  { rewrite (put_empty_city _ _ _ _ _ _ Hdec Hcity). now apply put_case_city with rb. }
  rewrite (put_fetch _ _ _ _ _ _ Hdec Hcity). unfold afterFetch.
  destruct (provider env _) as [e|response] eqn:Hprov.
  { now apply put_case_transport with e. }
  destruct (http.StatusCode response =? 200) eqn:Hcode.
  2:{ apply Z.eqb_neq in Hcode. now apply put_case_status with response. }
  apply Z.eqb_eq in Hcode.
  destruct (Unmarshal_weatherjson (http.RespBody response)) as [wj|] eqn:Hparse.
  2:{ now apply put_case_parse with response. }
  destruct (Weather wj) as [|first rest] eqn:Hw.
  { now apply put_case_panic with response wj. }
  destruct (mongo_fault env) as [e|] eqn:Hdb.
  - now apply (put_case_store env r baseURL apiKey c rb response wj first rest e).
  - now apply (put_case_ok env r baseURL apiKey c rb response wj first rest).
Qed.

(** ** The route *)

(** X1. A request to [/weather] whose method is neither GET nor PUT
    (compared as written, so also "get") is answered 405 with the line
    "Method not allowed"; nothing outside is called and the collection is
    as before.  GET goes to [getWeatherHandler] and PUT to
    [putWeatherHandler] with the configured base URL and key. *)
Theorem route_by_method {J : JSON} : forall env r baseURL apiKey c,
  (http.Method r <> "GET" -> http.Method r <> "PUT" ->
   serve env (weatherRoute r baseURL apiKey) c
   = (Returned tt,
      {| collection := c; w := errorWriter "Method not allowed" 405;
         calls := [] |}))
  /\
  (http.Method r = "GET" ->
   weatherRoute r baseURL apiKey = getWeatherHandler r)
  /\
  (http.Method r = "PUT" ->
   weatherRoute r baseURL apiKey = putWeatherHandler r baseURL apiKey).
Proof.
  intros env r baseURL apiKey c. unfold weatherRoute, http.MethodGet, http.MethodPut.
  split; [|split].
  - intros Hg Hp. apply String.eqb_neq in Hg, Hp. rewrite Hg, Hp. reflexivity.
  - intros ->. reflexivity.
  - intros ->. reflexivity.
Qed.

Lemma route_by_method_witness :
  serve (demoEnv parisDoc None)
        (weatherRoute (J:=demoJSON)
           {| http.Method := "DELETE"; http.Query := [("city", ["Paris"])];
              http.Body := cityDoc "Paris" |} demoBase demoKey)
        [parisRecord]
  = (Returned tt,
     {| collection := [parisRecord]; w := errorWriter "Method not allowed" 405;
        calls := [] |})
  /\
  weatherRoute (J:=demoJSON) (getRequest "Paris") demoBase demoKey
  = getWeatherHandler (getRequest "Paris")
  /\
  weatherRoute (J:=demoJSON) (putRequest (cityDoc "Paris")) demoBase demoKey
  = putWeatherHandler (J:=demoJSON) (putRequest (cityDoc "Paris"))
                      demoBase demoKey.
Proof.
  split; [|split].
  - apply (proj1 (route_by_method (J:=demoJSON) (demoEnv parisDoc None) _
                    demoBase demoKey [parisRecord])); discriminate.
  - apply (proj1 (proj2 (route_by_method (J:=demoJSON) (demoEnv parisDoc None)
                           (getRequest "Paris") demoBase demoKey []))).
    reflexivity.
  - apply (proj2 (proj2 (route_by_method (J:=demoJSON) (demoEnv parisDoc None)
                           (putRequest (cityDoc "Paris")) demoBase demoKey []))).
    reflexivity.
Defined.

(** ** The read path *)

(** X2. [getWeatherHandler] only reads: whatever the request and the
    environment, it returns (it does not panic), leaves the collection as
    it was, makes no call or exactly one [FindOne] on the city of the
    query, and answers 200, 400 or 404. *)
Theorem get_only_reads : forall env r c,
  let out := serve env (getWeatherHandler r) c in
  let city := http.Values_Get (http.Query r) "city" in
  fst out = Returned tt /\
  collection (snd out) = c /\
  (calls (snd out) = [] \/
   calls (snd out) = [EvFindOne {| mongo.filter_city := city |}]) /\
  (status out = Some 200 \/ status out = Some 400 \/ status out = Some 404).
Proof.
  intros env r c out city. subst out city.
  destruct (string_dec (http.Values_Get (http.Query r) "city") "") as [E|E].
  - rewrite (get_empty_city _ _ _ E). rewrite E. cbn.
    repeat split; auto.
  - rewrite (get_lookup _ _ _ E). cbn zeta.
    destruct (mongo_fault env); [cbn; repeat split; auto|].
    destruct (mongo.FindOne _ c); cbn; repeat split; auto.
Qed.

(** X14. The success responses differ in their headers: the read path
    sets [Content-Type: application/json] before it writes the record,
    the write path sets no header at all. *)
Theorem success_headers {J : JSON} : forall env r baseURL apiKey c d,
  (succeeded (serve env (getWeatherHandler r) c) d ->
   http.header (w (snd (serve env (getWeatherHandler r) c)))
   = [("Content-Type", "application/json")])
  /\
  (succeeded (serve env (putWeatherHandler r baseURL apiKey) c) d ->
   http.header (w (snd (serve env (putWeatherHandler r baseURL apiKey) c)))
   = []).
Proof.
  intros env r baseURL apiKey c d. split.
  - destruct (string_dec (http.Values_Get (http.Query r) "city") "") as [E|E].
    + rewrite (get_empty_city _ _ _ E). intros [_ [_ H]]. discriminate H.
    + rewrite (get_lookup _ _ _ E). cbn zeta.
      destruct (mongo_fault env); [intros [_ [_ H]]; discriminate H|].
      destruct (mongo.FindOne _ c); [intros [_ [_ H]]; discriminate H|].
      reflexivity.
  - destruct (put_cases env r baseURL apiKey c);
      try (intros [_ [Hs Hb]]; cbn in Hs, Hb; discriminate).
    reflexivity.
Qed.

Lemma success_headers_witness :
  http.header (w (snd (serve (demoEnv parisDoc None)
                         (getWeatherHandler (getRequest "Paris")) [parisRecord])))
  = [("Content-Type", "application/json")]
  /\
  http.header (w (snd (serve (demoEnv parisDoc None)
                         (putWeatherHandler (J:=demoJSON)
                            (putRequest (cityDoc "Paris")) demoBase demoKey) [])))
  = [].
Proof.
  split.
  - apply (proj1 (success_headers (J:=demoJSON) (demoEnv parisDoc None)
                    (getRequest "Paris") demoBase demoKey [parisRecord]
                    parisRecord)).
    repeat split.
  - apply (proj2 (success_headers (J:=demoJSON) (demoEnv parisDoc None)
                    (putRequest (cityDoc "Paris")) demoBase demoKey []
                    parisRecord)).
    repeat split.
Defined.

(** ** The write path: failures *)

(** X3. When the upsert call returns an error, the write is answered 500
    with the line of StorageError, not with a record; the calls made are
    the provider call and that one [UpdateOne], whose filter is the
    provider's name and whose record is the one built from the provider's
    document. *)
Theorem put_storage_failure {J : JSON} :
  forall env r baseURL apiKey c rb response wj first rest e,
  Decode_requestBody (http.Body r) = Some rb ->
  requestBody_City rb <> "" ->
  provider env (searchURL baseURL apiKey (requestBody_City rb)) = inr response ->
  http.StatusCode response = 200 ->
  Unmarshal_weatherjson (http.RespBody response) = Some wj ->
  Weather wj = first :: rest ->
  mongo_fault env = Some e ->
  let out := serve env (putWeatherHandler r baseURL apiKey) c in
  let d := recordOf wj first (clock env) in
  failed out Spec.StorageError /\ status out = Some 500 /\
  http.body (w (snd out)) = [http.Line "Failed to update weather data"] /\
  calls (snd out)
  = [EvGet (searchURL baseURL apiKey (requestBody_City rb));
     EvUpdateOne {| mongo.filter_city := Name wj |} {| mongo.set := d |} true].
Proof.
  intros env r baseURL apiKey c rb response wj first rest e
         Hdec Hcity Hprov Hcode Hparse Hw Hdb out d. subst out d.
  rewrite (put_fetch _ _ _ _ _ _ Hdec Hcity). unfold afterFetch.
  rewrite Hprov, Hcode, Hparse, Hw, Hdb. repeat split.
Qed.

Lemma put_storage_failure_witness :
  let out := serve (demoEnv parisDoc (Some "context deadline exceeded"))
               (putWeatherHandler (J:=demoJSON) (putRequest (cityDoc "Paris"))
                                  demoBase demoKey) [osloRecord] in
  failed out Spec.StorageError /\ status out = Some 500 /\
  http.body (w (snd out)) = [http.Line "Failed to update weather data"] /\
  calls (snd out)
  = [EvGet (searchURL demoBase demoKey "Paris");
     EvUpdateOne {| mongo.filter_city := "Paris" |}
                 {| mongo.set := parisRecord |} true].
Proof.
  refine (put_storage_failure (J:=demoJSON)
            (demoEnv parisDoc (Some "context deadline exceeded"))
            (putRequest (cityDoc "Paris")) demoBase demoKey [osloRecord]
            {| requestBody_City := "Paris" |}
            {| http.StatusCode := 200; http.RespBody := parisDoc |}
            parisJSON {| Weather_Description := "clear sky" |} []
            "context deadline exceeded"
            eq_refl _ eq_refl eq_refl eq_refl eq_refl eq_refl).
  discriminate.
Defined.

(** X4. When the provider answers 200 with a body that does not decode,
    the write is answered 500 with the line of UpstreamParseError; the
    provider call is the only call and the collection is as before. *)
Theorem put_parse_failure {J : JSON} :
  forall env r baseURL apiKey c rb response,
  Decode_requestBody (http.Body r) = Some rb ->
  requestBody_City rb <> "" ->
  provider env (searchURL baseURL apiKey (requestBody_City rb)) = inr response ->
  http.StatusCode response = 200 ->
  Unmarshal_weatherjson (http.RespBody response) = None ->
  let out := serve env (putWeatherHandler r baseURL apiKey) c in
  failed out Spec.UpstreamParseError /\ status out = Some 500 /\
  collection (snd out) = c /\
  calls (snd out) = [EvGet (searchURL baseURL apiKey (requestBody_City rb))].
Proof.
  intros env r baseURL apiKey c rb response Hdec Hcity Hprov Hcode Hparse out.
  subst out. rewrite (put_fetch _ _ _ _ _ _ Hdec Hcity). unfold afterFetch.
  rewrite Hprov, Hcode, Hparse. repeat split.
Qed.

Lemma put_parse_failure_witness :
  let out := serve (demoEnv "<html>maintenance</html>" None)
               (putWeatherHandler (J:=demoJSON) (putRequest (cityDoc "Paris"))
                                  demoBase demoKey) [osloRecord] in
  failed out Spec.UpstreamParseError /\ status out = Some 500 /\
  collection (snd out) = [osloRecord] /\
  calls (snd out) = [EvGet (searchURL demoBase demoKey "Paris")].
Proof.
  refine (put_parse_failure (J:=demoJSON)
            (demoEnv "<html>maintenance</html>" None)
            (putRequest (cityDoc "Paris")) demoBase demoKey [osloRecord]
            {| requestBody_City := "Paris" |}
            {| http.StatusCode := 200;
               http.RespBody := "<html>maintenance</html>" |}
            eq_refl _ eq_refl eq_refl eq_refl).
  discriminate.
Defined.

(** ** The write path: what it does and never does *)

(** X5. [putWeatherHandler] panics in exactly one situation: the request
    names a city, the provider answers 200 and its body decodes to a
    document with no conditions. *)
Theorem put_panics_exactly_when {J : JSON} : forall env r baseURL apiKey c,
  (exists msg,
     fst (serve env (putWeatherHandler r baseURL apiKey) c) = Panicked msg)
  <->
  (exists rb response wj,
     Decode_requestBody (http.Body r) = Some rb /\
     requestBody_City rb <> "" /\
     provider env (searchURL baseURL apiKey (requestBody_City rb))
       = inr response /\
     http.StatusCode response = 200 /\
     Unmarshal_weatherjson (http.RespBody response) = Some wj /\
     Weather wj = []).
Proof.
  intros env r baseURL apiKey c. split.
  - intros [msg H].
    destruct (put_cases env r baseURL apiKey c); try discriminate H.
    exists rb, response, wj. repeat split; assumption.
  - intros (rb & response & wj & Hdec & Hcity & Hprov & Hcode & Hparse & Hw).
    rewrite (put_fetch _ _ _ _ _ _ Hdec Hcity). unfold afterFetch.
    rewrite Hprov, Hcode, Hparse, Hw. eexists. reflexivity.
Qed.

(** X6. [putWeatherHandler] ends in one of three ways: answered 200
    with a record as body, no header set, after an [UpdateOne] call with
    upsert that set this record under its city; answered 400 or 500 with
    one line of text that stands for an error class; or panicking with
    nothing written.  A run that makes no [UpdateOne] call leaves the
    collection as it was. *)
Theorem put_outcomes {J : JSON} : forall env r baseURL apiKey c,
  let out := serve env (putWeatherHandler r baseURL apiKey) c in
  ((exists d,
      succeeded out d /\
      http.header (w (snd out)) = [] /\
      In (EvUpdateOne {| mongo.filter_city := City d |} {| mongo.set := d |} true)
         (calls (snd out)))
   \/
   (fst out = Returned tt /\
    (status out = Some 400 \/ status out = Some 500) /\
    exists msg f,
      http.body (w (snd out)) = [http.Line msg] /\
      Spec.failure_of_message msg = Some f)
   \/
   ((exists msg, fst out = Panicked msg) /\ w (snd out) = http.newWriter))
  /\
  ((forall f u b, ~ In (EvUpdateOne f u b) (calls (snd out))) ->
   collection (snd out) = c).
Proof.
  intros env r baseURL apiKey c out. subst out.
  destruct (put_cases env r baseURL apiKey c); split;
    try (intros _; reflexivity);
    try (right; left; cbn; repeat split; auto;
         eexists; eexists; split; reflexivity).
  - right; right. split; [eexists|]; reflexivity.
  - left. eexists. split; [repeat split|]. split; [reflexivity|].
    cbn. right. left. reflexivity.
  - intros Hno. exfalso. eapply Hno. cbn. right. left. reflexivity.
Qed.

Lemma put_outcomes_witness :
  collection (snd (serve downEnv
     (putWeatherHandler (J:=demoJSON) (putRequest (cityDoc "Paris"))
                        demoBase demoKey) [osloRecord]))
  = [osloRecord].
Proof.
  apply (proj2 (put_outcomes (J:=demoJSON) downEnv
                  (putRequest (cityDoc "Paris")) demoBase demoKey [osloRecord])).
  intros f u b [H|[]]. discriminate H.
Defined.

(** X7. The write path never reads the collection.  It calls nothing, or
    the provider once at the URL of the requested city, or the provider
    and then one [UpdateOne] with upsert whose filter is the city of the
    record it sets. *)
Theorem put_call_discipline {J : JSON} : forall env r baseURL apiKey c,
  let log := calls (snd (serve env (putWeatherHandler r baseURL apiKey) c)) in
  log = [] \/
  exists rb,
    Decode_requestBody (http.Body r) = Some rb /\
    let url := searchURL baseURL apiKey (requestBody_City rb) in
    (log = [EvGet url] \/
     exists d, log = [EvGet url;
                      EvUpdateOne {| mongo.filter_city := City d |}
                                  {| mongo.set := d |} true]).
Proof.
  intros env r baseURL apiKey c log. subst log.
  destruct (put_cases env r baseURL apiKey c); cbn [snd calls stored];
    try (left; reflexivity);
    try (right; exists rb; split; [assumption|left; reflexivity]).
  - right. exists rb. split; [assumption|]. right. eexists. reflexivity.
  - right. exists rb. split; [assumption|]. right. eexists. reflexivity.
Qed.

(** X8. A write does not disturb other cities: for a city that is not the
    city of the record the write answered with, the lookup finds the same
    record as before, the number of its records is the same, and a read
    for it is answered as before. *)
Theorem put_leaves_other_cities {J : JSON} :
  forall env r baseURL apiKey c q env' r',
  let out := serve env (putWeatherHandler r baseURL apiKey) c in
  (forall d, Spec.succeeds_with (w (snd out)) d -> City d <> q) ->
  http.Values_Get (http.Query r') "city" = q ->
  mongo.FindOne {| mongo.filter_city := q |} (collection (snd out))
  = mongo.FindOne {| mongo.filter_city := q |} c /\
  records_of q (collection (snd out)) = records_of q c /\
  w (snd (serve env' (getWeatherHandler r') (collection (snd out))))
  = w (snd (serve env' (getWeatherHandler r') c)).
Proof.
  intros env r baseURL apiKey c q env' r' out Hother Hq.
  assert (Hcoll : collection (snd out) = c \/
          exists d, City d <> q /\
            collection (snd out)
            = mongo.UpdateOne {| mongo.filter_city := City d |}
                              {| mongo.set := d |} true c).
  { subst out. revert Hother.
    destruct (put_cases env r baseURL apiKey c); intros Hother;
      try (left; reflexivity).
    right. eexists. split; [|reflexivity].
    apply Hother. split; reflexivity. }
  assert (Hfind : mongo.FindOne {| mongo.filter_city := q |} (collection (snd out))
                  = mongo.FindOne {| mongo.filter_city := q |} c).
  { destruct Hcoll as [->|[d [Hne ->]]]; [reflexivity|].
    unfold mongo.FindOne. rewrite find_UpdateOne_other by congruence.
    reflexivity. }
  split; [exact Hfind|]. split.
  - destruct Hcoll as [->|[d [Hne ->]]]; [reflexivity|].
    apply records_UpdateOne_other. congruence.
  - destruct (string_dec q "") as [E|E].
    + rewrite !get_empty_city by congruence. reflexivity.
    + rewrite !get_lookup by congruence. cbn zeta. rewrite Hq, Hfind.
      destruct (mongo_fault env'); [reflexivity|].
      destruct (mongo.FindOne _ c); reflexivity.
Qed.

Lemma put_leaves_other_cities_witness :
  let out := serve (demoEnv parisDoc None)
               (putWeatherHandler (J:=demoJSON) (putRequest (cityDoc "Paris"))
                                  demoBase demoKey) [osloRecord] in
  mongo.FindOne {| mongo.filter_city := "Oslo" |} (collection (snd out))
  = mongo.FindOne {| mongo.filter_city := "Oslo" |} [osloRecord] /\
  records_of "Oslo" (collection (snd out)) = records_of "Oslo" [osloRecord] /\
  w (snd (serve (demoEnv parisDoc None) (getWeatherHandler (getRequest "Oslo"))
                (collection (snd out))))
  = w (snd (serve (demoEnv parisDoc None) (getWeatherHandler (getRequest "Oslo"))
                  [osloRecord])).
Proof.
  refine (put_leaves_other_cities (J:=demoJSON) (demoEnv parisDoc None)
            (putRequest (cityDoc "Paris")) demoBase demoKey [osloRecord]
            "Oslo" (demoEnv parisDoc None) (getRequest "Oslo") _ eq_refl).
  intros d [_ H]. cbn in H. injection H as <-. discriminate.
Defined.

(** X10. A write answered 200 adds one document when the collection held
    no record of the record's city, and otherwise keeps the number of
    documents: it overwrites. *)
Theorem put_success_size {J : JSON} : forall env r baseURL apiKey c d,
  let out := serve env (putWeatherHandler r baseURL apiKey) c in
  succeeded out d ->
  length (collection (snd out))
  = (length c + if Nat.eqb (records_of (City d) c) 0 then 1 else 0)%nat.
Proof.
  intros env r baseURL apiKey c d out [_ Hok].
  destruct (put_success_inv env r baseURL apiKey c (fst out) (snd out) d)
    as (rb & response & wj & first & rest & _ & _ & _ & _ & _ & _ & _
        & _ & _ & Hs).
  - subst out. now destruct (serve env (putWeatherHandler r baseURL apiKey) c).
  - exact Hok.
  - rewrite Hs. cbn [stored collection]. apply length_UpdateOne.
Qed.

Lemma put_success_size_witness :
  length (collection (snd (serve (demoEnv parisDoc None)
            (putWeatherHandler (J:=demoJSON) (putRequest (cityDoc "Paris"))
                               demoBase demoKey) [osloRecord])))
  = 2%nat
  /\
  length (collection (snd (serve (demoEnv parisDoc None)
            (putWeatherHandler (J:=demoJSON) (putRequest (cityDoc "Paris"))
                               demoBase demoKey) [osloRecord; parisRecord])))
  = 2%nat.
Proof.
  split.
  - refine (put_success_size (J:=demoJSON) (demoEnv parisDoc None)
              (putRequest (cityDoc "Paris")) demoBase demoKey [osloRecord]
              parisRecord _).
    repeat split.
  - refine (put_success_size (J:=demoJSON) (demoEnv parisDoc None)
              (putRequest (cityDoc "Paris")) demoBase demoKey
              [osloRecord; parisRecord] parisRecord _).
    repeat split.
Defined.

(** X11. Repeating a write under the same provider answer, clock and
    database condition changes nothing further: the second run leaves the
    collection the first one left, with the same outcome, response and
    calls. *)
Theorem put_repeat {J : JSON} : forall env r baseURL apiKey c,
  let once := serve env (putWeatherHandler r baseURL apiKey) c in
  let twice := serve env (putWeatherHandler r baseURL apiKey)
                     (collection (snd once)) in
  twice = once.
Proof.
  intros env r baseURL apiKey c once twice. subst twice once.
  destruct (put_cases env r baseURL apiKey c) as
    [Hdec|rb Hdec Hcity|rb e Hdec Hcity Hprov|rb response Hdec Hcity Hprov Hcode
     |rb response Hdec Hcity Hprov Hcode Hparse
     |rb response wj Hdec Hcity Hprov Hcode Hparse Hw
     |rb response wj first rest e Hdec Hcity Hprov Hcode Hparse Hw Hdb
     |rb response wj first rest Hdec Hcity Hprov Hcode Hparse Hw Hdb];
    cbn [snd collection stored].
  - now rewrite (put_bad_body _ _ _ _ _ Hdec).
  - now rewrite (put_empty_city _ _ _ _ _ _ Hdec Hcity).
  - rewrite (put_fetch _ _ _ _ _ _ Hdec Hcity). unfold afterFetch.
    now rewrite Hprov.
  - rewrite (put_fetch _ _ _ _ _ _ Hdec Hcity). unfold afterFetch.
    apply Z.eqb_neq in Hcode. now rewrite Hprov, Hcode.
  - rewrite (put_fetch _ _ _ _ _ _ Hdec Hcity). unfold afterFetch.
    now rewrite Hprov, Hcode, Hparse.
  - rewrite (put_fetch _ _ _ _ _ _ Hdec Hcity). unfold afterFetch.
    now rewrite Hprov, Hcode, Hparse, Hw.
  - rewrite (put_fetch _ _ _ _ _ _ Hdec Hcity). unfold afterFetch.
    now rewrite Hprov, Hcode, Hparse, Hw, Hdb.
  - rewrite (put_success _ _ _ _ _ _ _ _ _ _ Hdec Hcity Hprov Hcode Hparse Hw Hdb).
    unfold stored. cbv zeta. now rewrite UpdateOne_again.
Qed.

Lemma put_panics_exactly_when_witness :
  exists msg,
    fst (serve (demoEnv noConditionsDoc None)
           (putWeatherHandler (J:=demoJSON) (putRequest (cityDoc "Paris"))
                              demoBase demoKey) [osloRecord]) = Panicked msg.
Proof.
  apply (proj2 (put_panics_exactly_when (J:=demoJSON)
                  (demoEnv noConditionsDoc None) (putRequest (cityDoc "Paris"))
                  demoBase demoKey [osloRecord])).
  exists {| requestBody_City := "Paris" |},
         {| http.StatusCode := 200; http.RespBody := noConditionsDoc |},
         noConditionsJSON.
  repeat split. discriminate.
Defined.

(** ** The service never deletes *)

Section Steps.

Context {J : JSON}.
Variables baseURL apiKey : string.

Lemma route_collection : forall env r c res s,
  serve env (weatherRoute r baseURL apiKey) c = (res, s) ->
  collection s = c \/
  exists d,
    http.Method r = http.MethodPut /\ Spec.succeeds_with (w s) d /\
    collection s
    = mongo.UpdateOne {| mongo.filter_city := City d |} {| mongo.set := d |}
                      true c.
Proof.
  intros env r c res s Hrun. unfold weatherRoute in Hrun.
  destruct (String.eqb (http.Method r) http.MethodGet).
  - left. exact (get_collection _ _ _ _ _ Hrun).
  - destruct (String.eqb (http.Method r) http.MethodPut) eqn:Hm.
    + apply String.eqb_eq in Hm. revert Hrun.
      destruct (put_cases env r baseURL apiKey c); intros Hrun;
        injection Hrun as <- <-; try (left; reflexivity).
      right. eexists. split; [exact Hm|]. split; [split|]; reflexivity.
    + unfold serve, initial in Hrun. rewrite run_http_Error in Hrun.
      injection Hrun as <- <-. now left.
Qed.

End Steps.

(** X9. No request deletes a record: after any request through
    [/weather], whatever its outcome, every city has at least as many
    records as before, and the collection has the same number of
    documents or one more. *)
Theorem step_never_deletes {J : JSON} : forall baseURL apiKey c c',
  step baseURL apiKey c c' ->
  (forall city, (records_of city c <= records_of city c')%nat) /\
  (length c <= length c' <= S (length c))%nat.
Proof.
  intros baseURL apiKey c c' [c0 env r res s Hrun].
  destruct (route_collection _ _ _ _ _ _ _ Hrun) as [->|[d [_ [_ ->]]]].
  - split; [intros; lia|lia].
  - split.
    + intros city. apply records_UpdateOne_ge.
    + rewrite length_UpdateOne.
      destruct (Nat.eqb (records_of (City d) c0) 0); lia.
Qed.

Lemma step_never_deletes_witness :
  (forall city,
     (records_of city [osloRecord] <= records_of city [osloRecord; parisRecord])%nat)
  /\
  (length [osloRecord] <= length [osloRecord; parisRecord]
   <= S (length [osloRecord]))%nat.
Proof.
  refine (step_never_deletes (J:=demoJSON) demoBase demoKey [osloRecord]
            [osloRecord; parisRecord] _).
  exact (step_intro (J:=demoJSON) demoBase demoKey [osloRecord]
           (demoEnv parisDoc None) (putRequest (cityDoc "Paris")) (Returned tt)
           (stored (searchURL demoBase demoKey "Paris") parisRecord [osloRecord])
           eq_refl).
Defined.

(** ** What a read can return *)

Lemma upserted_later : forall h x d, upserted h d -> upserted (x :: h) d.
Proof.
  intros h x d (r & s & f & b & Hin & Hcall).
  exists r, s, f, b. split; [now right|assumption].
Qed.

Lemma route_collection_calls {J : JSON} : forall env r baseURL apiKey c res s,
  serve env (weatherRoute r baseURL apiKey) c = (res, s) ->
  collection s = c \/
  exists d,
    In (EvUpdateOne {| mongo.filter_city := City d |} {| mongo.set := d |} true)
       (calls s) /\
    collection s
    = mongo.UpdateOne {| mongo.filter_city := City d |} {| mongo.set := d |}
                      true c.
Proof.
  intros env r baseURL apiKey c res s Hrun. unfold weatherRoute in Hrun.
  destruct (String.eqb (http.Method r) http.MethodGet).
  - left. exact (get_collection _ _ _ _ _ Hrun).
  - destruct (String.eqb (http.Method r) http.MethodPut).
    + revert Hrun.
      destruct (put_cases env r baseURL apiKey c); intros Hrun;
        injection Hrun as <- <-; try (left; reflexivity).
      right. eexists. split; [|reflexivity]. cbn. right. left. reflexivity.
    + unfold serve, initial in Hrun. rewrite run_http_Error in Hrun.
      injection Hrun as <- <-. now left.
Qed.

Lemma history_records {J : JSON} : forall baseURL apiKey c h,
  history baseURL apiKey c h -> forall d, In d c -> upserted h d.
Proof.
  intros baseURL apiKey c h H.
  induction H as [|c h env r res s Hprev IH Hrun]; intros d Hin.
  - destruct Hin.
  - destruct (route_collection_calls _ _ _ _ _ _ _ Hrun) as [E|[d' [Hcall E]]];
      rewrite E in Hin.
    + apply upserted_later. now apply IH.
    + apply In_UpdateOne in Hin. cbn [mongo.set] in Hin.
      destruct Hin as [->|Hin].
      * exists r, s, {| mongo.filter_city := City d' |}, true.
        split; [now left|assumption].
      * apply upserted_later. now apply IH.
Qed.

(** X12. The read path serves only what the write path sent to the
    collection: in a service started on an empty collection, a read
    answered 200 carries the city asked for, and its city, description
    and temperature are those of a record that an earlier request set
    with [UpdateOne]. *)
Theorem read_returns_upserted_record {J : JSON} :
  forall baseURL apiKey c h env r res s d,
  history baseURL apiKey c h ->
  serve env (getWeatherHandler r) c = (res, s) ->
  Spec.succeeds_with (w s) d ->
  City d = http.Values_Get (http.Query r) "city" /\
  exists d0,
    upserted h d0 /\
    City d = City d0 /\ Description d = Description d0 /\ Temp d = Temp d0.
Proof.
  intros baseURL apiKey c h env r res s d Hh Hrun [_ Hbody].
  destruct (string_dec (http.Values_Get (http.Query r) "city") "") as [E|E].
  { rewrite (get_empty_city _ _ _ E) in Hrun. injection Hrun as <- <-.
    discriminate Hbody. }
  rewrite (get_lookup _ _ _ E) in Hrun. cbn zeta in Hrun.
  destruct (mongo_fault env); [injection Hrun as <- <-; discriminate Hbody|].
  destruct (mongo.FindOne _ c) as [e|x] eqn:Hf;
    injection Hrun as <- <-; [discriminate Hbody|].
  cbn in Hbody. injection Hbody as <-.
  apply FindOne_found in Hf. destruct Hf as [Hm Hin]. split.
  - now apply matches_city.
  - exists x. split; [exact (history_records _ _ _ _ Hh _ Hin)|].
    repeat split.
Qed.

(** X13. A city never sent to the collection is not found: in a service
    started on an empty collection, when no request so far called
    [UpdateOne] with a record of the city, a read for it is answered 404
    whatever the state of the database connection, and the read leaves
    the collection as it was. *)
Theorem never_upserted_not_found {J : JSON} :
  forall baseURL apiKey c h env r,
  history baseURL apiKey c h ->
  http.Values_Get (http.Query r) "city" <> "" ->
  (forall d, upserted h d -> City d <> http.Values_Get (http.Query r) "city") ->
  let out := serve env (getWeatherHandler r) c in
  failed out Spec.NotFound /\ status out = Some 404 /\
  collection (snd out) = c.
Proof.
  intros baseURL apiKey c h env r Hh Hcity Hnone out. subst out.
  rewrite (get_lookup _ _ _ Hcity). cbn zeta.
  destruct (mongo_fault env); [repeat split|].
  destruct (mongo.FindOne _ c) as [e|x] eqn:Hf; [repeat split|].
  exfalso. apply FindOne_found in Hf. destruct Hf as [Hm Hin].
  apply (Hnone x (history_records _ _ _ _ Hh _ Hin)).
  now apply matches_city.
Qed.

(** A service that has answered one PUT for Paris. *)
Lemma history_paris :
  history (J:=demoJSON) demoBase demoKey [parisRecord]
    [(putRequest (cityDoc "Paris"),
      stored (searchURL demoBase demoKey "Paris") parisRecord [])].
Proof.
  exact (history_serve (J:=demoJSON) demoBase demoKey [] []
           (demoEnv parisDoc None) (putRequest (cityDoc "Paris")) (Returned tt)
           (stored (searchURL demoBase demoKey "Paris") parisRecord [])
           (history_start demoBase demoKey) eq_refl).
Defined.

Lemma read_returns_upserted_record_witness :
  City parisRecord = "Paris" /\
  exists d0,
    upserted [(putRequest (cityDoc "Paris"),
               stored (searchURL demoBase demoKey "Paris") parisRecord [])] d0 /\
    City parisRecord = City d0 /\ Description parisRecord = Description d0 /\
    Temp parisRecord = Temp d0.
Proof.
  refine (read_returns_upserted_record (J:=demoJSON) demoBase demoKey
            [parisRecord] _ (demoEnv parisDoc None) (getRequest "Paris")
            _ _ parisRecord history_paris eq_refl _).
  split; reflexivity.
Defined.

Lemma never_upserted_not_found_witness :
  let out := serve (demoEnv parisDoc None) (getWeatherHandler (getRequest "Oslo"))
                   [parisRecord] in
  failed out Spec.NotFound /\ status out = Some 404 /\
  collection (snd out) = [parisRecord].
Proof.
  refine (never_upserted_not_found (J:=demoJSON) demoBase demoKey [parisRecord]
            _ (demoEnv parisDoc None) (getRequest "Oslo") history_paris _ _).
  - discriminate.
  - intros d (r & s & f & b & Hin & Hcall).
    destruct Hin as [Hin|[]]. injection Hin as <- <-.
    cbn in Hcall. destruct Hcall as [H|[H|[]]]; [discriminate H|].
    injection H as _ <- _. discriminate.
Defined.

(** ** The record a write builds *)

(** X15. Whenever a write is answered 200 with record [d], the provider's
    document had at least one condition; [d] takes its description from
    the first one (further conditions are not looked at) and its
    [LastUpdated] from the clock read during the request. *)
Theorem put_record_fields {J : JSON} : forall env r baseURL apiKey c res s d,
  serve env (putWeatherHandler r baseURL apiKey) c = (res, s) ->
  Spec.succeeds_with (w s) d ->
  exists rb response wj first rest,
    Decode_requestBody (http.Body r) = Some rb /\
    provider env (searchURL baseURL apiKey (requestBody_City rb))
      = inr response /\
    Unmarshal_weatherjson (http.RespBody response) = Some wj /\
    Weather wj = first :: rest /\
    Description d = Weather_Description first /\
    LastUpdated d = clock env.
Proof.
  intros env r baseURL apiKey c res s d Hrun Hok.
  destruct (put_success_inv _ _ _ _ _ _ _ _ Hrun Hok)
    as (rb & response & wj & first & rest & Hdec & Hcity & Hprov & Hcode
        & Hparse & Hw & Hdb & Hd & Hres & Hs).
  exists rb, response, wj, first, rest. subst d.
  repeat split; assumption.
Qed.

Lemma put_record_fields_witness :
  exists rb response wj first rest,
    Decode_requestBody (JSON:=demoJSON2) (cityDoc "Paris") = Some rb /\
    demoProvider rainDoc (searchURL demoBase demoKey (requestBody_City rb))
      = inr response /\
    Unmarshal_weatherjson (JSON:=demoJSON2) (http.RespBody response) = Some wj /\
    Weather wj = first :: rest /\
    Description rainRecord = Weather_Description first /\
    LastUpdated rainRecord = clock (demoEnv rainDoc None).
Proof.
  refine (put_record_fields (J:=demoJSON2) (demoEnv rainDoc None)
            (putRequest (cityDoc "Paris")) demoBase demoKey [parisRecord] _ _
            rainRecord eq_refl _).
  split; reflexivity.
Defined.

(** * Startup *)

Lemma runMain_main {J : JSON} : forall sys,
  runMain sys main =
  let uri := environ sys "MONGO_URI" in
  match load sys with
  | Some _ => (Exited "Error loading .env file", [SLoad])
  | None =>
      match connect sys uri with
      | Some e =>
          (Exited ("Failed to connect to MongoDB:" ++ e), [SLoad; SConnect uri])
      | None =>
          match ping sys with
          | Some e =>
              (Exited ("Failed to ping MongoDB:" ++ e),
               [SLoad; SConnect uri; SPing])
          | None =>
              (match listen sys ":8080" with
               | Some e => Exited e
               | None => Serving
               end,
               [SLoad; SConnect uri; SPing;
                SCollection "weatherdb" "weather";
                SHandleFunc "/weather"
                  (fun r => weatherRoute r (environ sys "BASE_URL")
                                         (environ sys "API_KEY"));
                SPrintln "Server is running on http://localhost:8080";
                SListen ":8080"])
          end
      end
  end.
Proof.
  intros sys. unfold main. cbn.
  destruct (load sys); [reflexivity|]. cbn.
  destruct (connect sys _); [reflexivity|]. cbn.
  destruct (ping sys); [reflexivity|]. cbn.
  destruct (listen sys _); reflexivity.
Qed.

(** X16. Startup fails fast.  If the [.env] file does not load, [main]
    exits with "Error loading .env file" before anything else is tried;
    if connecting with [MONGO_URI] fails it exits without pinging; if the
    ping fails it exits without registering the handler or listening. *)
Theorem main_fails_fast {J : JSON} : forall sys,
  let uri := environ sys "MONGO_URI" in
  (forall e, load sys = Some e ->
     runMain sys main = (Exited "Error loading .env file", [SLoad]))
  /\
  (forall e, load sys = None -> connect sys uri = Some e ->
     runMain sys main
     = (Exited ("Failed to connect to MongoDB:" ++ e), [SLoad; SConnect uri]))
  /\
  (forall e, load sys = None -> connect sys uri = None -> ping sys = Some e ->
     runMain sys main
     = (Exited ("Failed to ping MongoDB:" ++ e), [SLoad; SConnect uri; SPing])).
Proof.
  intros sys uri. subst uri. rewrite runMain_main. cbv zeta.
  split; [|split].
  - intros e ->. reflexivity.
  - intros e -> ->. reflexivity.
  - intros e -> -> ->. reflexivity.
Qed.

Lemma main_fails_fast_witness :
  runMain noEnvFile (main (J:=demoJSON))
  = (Exited "Error loading .env file", [SLoad])
  /\
  runMain badURI (main (J:=demoJSON))
  = (Exited "Failed to connect to MongoDB:error parsing uri",
     [SLoad; SConnect "mongodb://db.test:27017"])
  /\
  runMain noDatabase (main (J:=demoJSON))
  = (Exited "Failed to ping MongoDB:server selection error",
     [SLoad; SConnect "mongodb://db.test:27017"; SPing]).
Proof.
  split; [|split].
  - exact (proj1 (main_fails_fast (J:=demoJSON) noEnvFile) _ eq_refl).
  - exact (proj1 (proj2 (main_fails_fast (J:=demoJSON) badURI))
                 _ eq_refl eq_refl).
  - exact (proj2 (proj2 (main_fails_fast (J:=demoJSON) noDatabase))
                 _ eq_refl eq_refl eq_refl).
Defined.

(** X17. When the file loads, the connection is made and the ping
    succeeds, [main] selects collection [weather] of database [weatherdb],
    registers for [/weather] the route with [BASE_URL] and [API_KEY] of
    the environment (empty strings when unset), prints the banner and
    listens on [:8080]; it then serves, or exits with the error of
    [ListenAndServe]. *)
Theorem main_serves {J : JSON} : forall sys,
  load sys = None ->
  connect sys (environ sys "MONGO_URI") = None ->
  ping sys = None ->
  runMain sys main
  = (match listen sys ":8080" with
     | Some e => Exited e
     | None => Serving
     end,
     [SLoad; SConnect (environ sys "MONGO_URI"); SPing;
      SCollection "weatherdb" "weather";
      SHandleFunc "/weather"
        (fun r => weatherRoute r (environ sys "BASE_URL")
                               (environ sys "API_KEY"));
      SPrintln "Server is running on http://localhost:8080";
      SListen ":8080"]).
Proof.
  intros sys Hl Hc Hp. rewrite runMain_main. cbv zeta.
  rewrite Hl, Hc, Hp. reflexivity.
Qed.

Lemma main_serves_witness :
  runMain portTaken (main (J:=demoJSON))
  = (Exited "listen tcp :8080: bind: address already in use",
     [SLoad; SConnect "mongodb://db.test:27017"; SPing;
      SCollection "weatherdb" "weather";
      SHandleFunc "/weather"
        (fun r => weatherRoute (J:=demoJSON) r demoBase demoKey);
      SPrintln "Server is running on http://localhost:8080";
      SListen ":8080"]).
Proof.
  exact (main_serves (J:=demoJSON) portTaken eq_refl eq_refl eq_refl).
Defined.

(** X18. [main] never returns: it ends in [log.Fatal] or stays in
    [ListenAndServe].  So its deferred calls never run: the client is
    never disconnected and the context never cancelled.  And it listens
    only on [:8080] and only after load, connect and ping went through. *)
Theorem main_never_returns {J : JSON} : forall sys,
  let out := runMain sys main in
  fst out <> MainReturned /\
  ~ In SDisconnect (snd out) /\
  ~ In SCancel (snd out) /\
  (forall addr, In (SListen addr) (snd out) ->
     addr = ":8080" /\ load sys = None /\
     connect sys (environ sys "MONGO_URI") = None /\ ping sys = None).
Proof.
  intros sys out. subst out. rewrite runMain_main. cbv zeta.
  assert (Hno : forall (ev : SysEvent) (l : list SysEvent),
            Forall (fun x => x <> ev) l -> ~ In ev l).
  { intros ev l Hall Hin. rewrite Forall_forall in Hall.
    exact (Hall ev Hin eq_refl). }
  destruct (load sys) as [e|].
  { cbn [fst snd]. repeat split; try discriminate;
      try (apply Hno; repeat constructor; discriminate).
    all: destruct H as [H|[]]; discriminate H. }
  destruct (connect sys _) as [e|].
  { cbn [fst snd]. repeat split; try discriminate;
      try (apply Hno; repeat constructor; discriminate).
    all: destruct H as [H|[H|[]]]; discriminate H. }
  destruct (ping sys) as [e|].
  { cbn [fst snd]. repeat split; try discriminate;
      try (apply Hno; repeat constructor; discriminate).
    all: destruct H as [H|[H|[H|[]]]]; discriminate H. }
  cbn [fst snd]. repeat split;
    try (apply Hno; repeat constructor; discriminate).
  - destruct (listen sys _); discriminate.
  - destruct H as [H|[H|[H|[H|[H|[H|[H|[]]]]]]]]; try discriminate H.
    now injection H as <-.
Qed.

Lemma main_never_returns_witness :
  ":8080" = ":8080" /\ load demoSys = None /\
  connect demoSys (environ demoSys "MONGO_URI") = None /\ ping demoSys = None.
Proof.
  refine (proj2 (proj2 (proj2 (main_never_returns (J:=demoJSON) demoSys)))
                ":8080" _).
  cbn. do 6 right. left. reflexivity.
Defined.
